(** * Bakery sales dashboard: classifier and aggregation queries

    A shallow embedding of [pages/07_수행평가.py]: the loader [load_data],
    the item classifier [map_item_category] and the pandas pipelines of the
    two dashboard tabs, with the properties the specification states about
    them.

    Conventions.
    - A Python [str] is a [string] whose characters are read as code points
      below 256; [lower] and [strip] follow [str.lower] and [str.strip] on
      that range.
    - A DataFrame is the list of its rows in index order; a cell that pandas
      holds as NaN is [None].
    - An expression that raises is a value [Raise e] of type [result]. *)

From Stdlib Require Import String Ascii List ZArith Lia Bool Permutation OrderedTypeEx.
From stdpp Require Import gmap strings list sorting.

Import ListNotations.

(** ** Python strings *)

Module PyStr.

Definition code (c : ascii) : nat := nat_of_ascii c.

(** [str.lower] on one code point: A-Z, and the Latin-1 capitals
    U+00C0..U+00DE without the multiplication sign U+00D7. *)
Definition lower_char (c : ascii) : ascii :=
  let n := code c in
  if ((65 <=? n) && (n <=? 90))
     || ((192 <=? n) && (n <=? 222) && negb (n =? 215))
  then ascii_of_nat (n + 32)
  else c.

Fixpoint lower (s : string) : string :=
  match s with
  | EmptyString => EmptyString
  | String c t => String (lower_char c) (lower t)
  end.

(** [str.isspace] on one code point: TAB..CR, FS..US, SPACE, NEL, NBSP. *)
Definition is_space (c : ascii) : bool :=
  let n := code c in
  ((9 <=? n) && (n <=? 13)) || ((28 <=? n) && (n <=? 32))
  || (n =? 133) || (n =? 160).

Fixpoint lstrip (s : string) : string :=
  match s with
  | EmptyString => EmptyString
  | String c t => if is_space c then lstrip t else s
  end.

Fixpoint rstrip (s : string) : string :=
  match s with
  | EmptyString => EmptyString
  | String c t =>
      match rstrip t with
      | EmptyString => if is_space c then EmptyString else String c EmptyString
      | t' => String c t'
      end
  end.

Definition strip (s : string) : string := rstrip (lstrip s).

(** [m in s] for two strings: [m] occurs in [s] at some position. *)
Fixpoint contains (m s : string) : bool :=
  String.prefix m s
  || match s with
     | EmptyString => false
     | String _ t => contains m t
     end.

End PyStr.

(** ** DataFrame cells and rows *)

(** A text cell of the frame: [None] is NaN. *)
Abbreviation cell := (option string).

(** [str(x)] on a text cell. *)
Definition py_str (x : cell) : string :=
  match x with
  | Some s => s
  | None => "nan"
  end.

(** ** The classifier *)

Definition meals : list string :=
  ["sandwich"; "spanish brunch"; "soup"; "tacos/fajita"; "focaccia";
   "scandinavian"; "baguette"; "scone"; "bowl"; "toast"; "miso"; "truffle";
   "bacon"; "eggs"; "extra salami or feta"; "choc spread"; "brownie";
   "tiffin"].

Definition normalize (item : cell) : string :=
  PyStr.strip (PyStr.lower (py_str item)).

(** The body of [map_item_category] after the first assignment. *)
Definition category_of (item : string) : string * string :=
  let has m := PyStr.contains m item in
  if existsb has meals then ("Meal", "meal")
  else if has "coffee" || has "latte" || has "espresso" || has "cappuccino"
  then ("Drink", "coffee")
  else if has "tea" || has "hot chocolate" then ("Drink", "tea")
  else if has "coke" || has "juice" || has "smoothies" || has "fanta"
  then ("Drink", "sweet")
  else if String.eqb item "bread" then ("Dessert", "bread")
  else if has "cookies" || has "biscotti" || has "granola"
  then ("Dessert", "crunch")
  else if has "cake" || has "tart" || has "fudge" then ("Dessert", "sweet")
  else if has "pastry" || has "medialuna" || has "muffin"
  then ("Dessert", "soft")
  else ("Other", "other").

Definition map_item_category (item : cell) : string * string :=
  category_of (normalize item).

(** ** The frame *)

Record Row := mkRow {
  TransactionNo : option Z;
  Items : cell;
  DayType : cell;
  Daypart : cell
}.

(** A row of the frame after the two classifier columns were added. *)
Record Derived := mkDerived {
  base : Row;
  Category : string;
  Sub_Category : string
}.

(** ** Raising expressions *)

Inductive exn := IndexError | ValueError.

Inductive result (A : Type) :=
| Return (a : A)
| Raise (e : exn).

Arguments Return {A} a.
Arguments Raise {A} e.

Definition bind {A B} (m : result A) (k : A -> result B) : result B :=
  match m with
  | Return a => k a
  | Raise e => Raise e
  end.

Notation "x <- m ;; k" := (bind m (fun x => k))
  (at level 100, m at next level, right associativity).

(** ** Loading *)

Definition daypart_order : list string :=
  ["Morning"; "Afternoon"; "Evening"; "Night"].

(** [pd.Categorical(values, categories)]: a value outside the categories
    becomes NaN. *)
Definition Categorical (categories : list string) (v : cell) : cell :=
  match v with
  | Some s => if decide (s ∈ categories) then Some s else None
  | None => None
  end.

(** [df.dropna(subset=['Items'])]. *)
Definition dropna_Items (df : list Row) : list Row :=
  filter (fun r => is_Some (Items r)) df.

Definition set_Daypart (r : Row) : Row :=
  {| TransactionNo := TransactionNo r;
     Items := Items r;
     DayType := DayType r;
     Daypart := Categorical daypart_order (Daypart r) |}.

(** [load_data]. The argument is the file ['Bakery.csv'] as [pd.read_csv]
    parses it, an empty or missing field being NaN; it is [None] when the
    path does not exist. *)
Definition load_data (file : option (list Row)) : option (list Row) :=
  match file with
  | None => None
  | Some df => Some (map set_Daypart (dropna_Items df))
  end.

(** The assignment of the columns [Category] and [Sub_Category]. *)
Definition add_category (r : Row) : Derived :=
  let c := map_item_category (Items r) in
  {| base := r; Category := fst c; Sub_Category := snd c |}.

(** [df[['Category', 'Sub_Category']] = s], where [s] is what
    [df['Items'].apply(...)] returned: a frame of one pair per row fills the
    two columns. On a frame without rows [apply] returns an empty Series,
    whose length is not that of the two-column key, and the assignment raises
    [ValueError]. *)
Definition set_categories (rows : list Derived) : result (list Derived) :=
  match rows with
  | [] => Raise ValueError
  | _ :: _ => Return rows
  end.

(** The module body down to the dashboard: [Return None] when the file is
    missing and nothing is shown, [Raise ValueError] when no row of the
    file has an item. *)
Definition derived_table (file : option (list Row))
  : result (option (list Derived)) :=
  match load_data file with
  | None => Return None
  | Some df => (t <- set_categories (map add_category df) ;; Return (Some t))
  end.

(** ** Counting and ranking *)

(** The hash table behind [value_counts]: a key met for the first time is
    appended with count 1, a key met again has its count incremented. *)
Fixpoint bump (x : string) (t : list (string * nat)) : list (string * nat) :=
  match t with
  | [] => [(x, 1)]
  | (y, n) :: t' => if decide (x = y) then (y, S n) :: t' else (y, n) :: bump x t'
  end.

Definition tally_from (t : list (string * nat)) (l : list string)
  : list (string * nat) :=
  fold_left (fun t x => bump x t) l t.

Definition tally (l : list string) : list (string * nat) := tally_from [] l.

(** Modelled from the spec: the order [value_counts] gives to entries of
    equal count, which is decided inside pandas and not by this repository.
    The specification words it as a stable descending sort, equal counts in
    the order of first appearance: an entry is placed before the first entry
    whose count is not larger. *)
Fixpoint insert_desc (p : string * nat) (l : list (string * nat))
  : list (string * nat) :=
  match l with
  | [] => [p]
  | q :: t => if snd p <? snd q then q :: insert_desc p t else p :: q :: t
  end.

Definition sort_desc (l : list (string * nat)) : list (string * nat) :=
  foldr insert_desc [] l.

(** [Series.value_counts()]: NaN is dropped, the distinct values are counted
    in the order of their first appearance and ordered by falling count. *)
Definition value_counts (col : list cell) : list (string * nat) :=
  sort_desc (tally (omap id col)).

(** [df[df['Daypart'] == daypart]['Items']]. A NaN cell equals nothing. *)
Definition Items_of_daypart (df : list Derived) (daypart : string) : list cell :=
  map (fun r => Items (base r))
      (filter (fun r => Daypart (base r) = Some daypart) df).

(** [....value_counts().reset_index().head(limit)]. *)
Definition topItemsByDaypart (df : list Derived) (daypart : string) (limit : nat)
  : list (string * nat) :=
  take limit (value_counts (Items_of_daypart df daypart)).

Definition daypart_top_5 (df : list Derived) (selected_daypart : string)
  : list (string * nat) :=
  topItemsByDaypart df selected_daypart 5.

Definition Items_of_category (df : list Derived) (category sub : string)
  : list cell :=
  map (fun r => Items (base r))
      (filter (fun r => Category r = category /\ Sub_Category r = sub) df).

Definition topItemsByCategory (df : list Derived) (category sub : string)
  (limit : nat) : list (string * nat) :=
  take limit (value_counts (Items_of_category df category sub)).

Definition category_items (df : list Derived) (item_category sub : string)
  : list (string * nat) :=
  topItemsByCategory df item_category sub 10.

(** ** Transactions per day type *)

(** [Series.nunique()]: the number of distinct values, NaN left out. *)
Definition nunique (col : list (option Z)) : nat :=
  length (remove_dups (omap id col)).

(** The group keys of [groupby]: distinct, in ascending order, NaN left out. *)
Fixpoint insert_key (k : string) (l : list string) : list string :=
  match l with
  | [] => [k]
  | h :: t =>
      match String.compare k h with
      | Lt => k :: h :: t
      | Eq => h :: t
      | Gt => h :: insert_key k t
      end
  end.

Definition group_keys (col : list cell) : list string :=
  foldr (fun c acc => match c with Some k => insert_key k acc | None => acc end)
        [] col.

Definition TransactionNo_of (df : list Derived) (daytype : string)
  : list (option Z) :=
  map (fun r => TransactionNo (base r))
      (filter (fun r => DayType (base r) = Some daytype) df).

(** [df.groupby('DayType')['TransactionNo'].nunique().reset_index()]. *)
Definition sales_by_day (df : list Derived) : list (string * nat) :=
  map (fun k => (k, nunique (TransactionNo_of df k)))
      (group_keys (map (fun r => DayType (base r)) df)).

Definition transactionCountByDayType (df : list Derived) : list (string * nat) :=
  sales_by_day df.

(** [sales[sales['DayType'] == daytype]['Total_Transactions']]. *)
Definition Total_Transactions_of (sales : list (string * nat)) (daytype : string)
  : list nat :=
  map snd (filter (fun p => fst p = daytype) sales).

(** [s.iloc[0]]. *)
Definition iloc0 {A} (s : list A) : result A :=
  match s with
  | [] => Raise IndexError
  | x :: _ => Return x
  end.

(** [s.max()]: NaN, here [None], on an empty series. *)
Definition series_max (s : list nat) : option nat :=
  match s with
  | [] => None
  | x :: t => Some (foldr Nat.max x t)
  end.

(** The two messages of the summary. *)
Inductive DayKind := Weekend | Weekday.

Record Comparison := mkComparison {
  color_map : gmap string string;
  weekend_sales : nat;
  weekday_sales : nat;
  winner : DayKind
}.

(** The branch of the last conditional. *)
Definition winner_of (weekend weekday : nat) : DayKind :=
  if weekday <? weekend then Weekend else Weekday.

(** The second tab, from [sales_by_day] to the summary message. *)
Definition tab2 (df : list Derived) : result Comparison :=
  let sales := sales_by_day df in
  let max_sales := series_max (map snd sales) in
  w0 <- iloc0 (Total_Transactions_of sales "Weekend") ;;
  let colors : gmap string string :=
    if decide (Some w0 = max_sales)
    then <["Weekday" := "#FADADD"]> (<["Weekend" := "#E36496"]> ∅)
    else <["Weekend" := "#FADADD"]> (<["Weekday" := "#E36496"]> ∅) in
  weekend <- iloc0 (Total_Transactions_of sales "Weekend") ;;
  weekday <- iloc0 (Total_Transactions_of sales "Weekday") ;;
  Return {| color_map := colors;
            weekend_sales := weekend;
            weekday_sales := weekday;
            winner := winner_of weekend weekday |}.

Definition compareWeekendVsWeekday (df : list Derived)
  : result (nat * nat * DayKind) :=
  c <- tab2 df ;;
  Return (weekend_sales c, weekday_sales c, winner c).

(** ** The [st.cache_data] caches

    Both [load_data] and [map_item_category] are memoised by the hosting
    framework: a call whose arguments were seen before returns the stored
    value, a new call runs the function and stores what it returns. The
    caches outlive a run of the page, so a run is a function of the cache it
    starts from. *)

Record Cache := mkCache {
  load_data_cache : option (option (list Row));
  map_item_category_cache : gmap cell (string * string)
}.

Definition empty_cache : Cache :=
  {| load_data_cache := None; map_item_category_cache := ∅ |}.

Definition cached_load_data (file : option (list Row)) (c : Cache)
  : option (list Row) * Cache :=
  match load_data_cache c with
  | Some v => (v, c)
  | None =>
      let v := load_data file in
      (v, {| load_data_cache := Some v;
             map_item_category_cache := map_item_category_cache c |})
  end.

Definition cached_map_item_category (item : cell) (c : Cache)
  : (string * string) * Cache :=
  match map_item_category_cache c !! item with
  | Some v => (v, c)
  | None =>
      let v := map_item_category item in
      (v, {| load_data_cache := load_data_cache c;
             map_item_category_cache := <[item := v]> (map_item_category_cache c) |})
  end.

Definition with_category (r : Row) (v : string * string) : Derived :=
  {| base := r; Category := fst v; Sub_Category := snd v |}.

(** [df['Items'].apply(...)], row after row, threading the cache. *)
Fixpoint cached_apply (df : list Row) (c : Cache) : list Derived * Cache :=
  match df with
  | [] => ([], c)
  | r :: t =>
      let (v, c1) := cached_map_item_category (Items r) c in
      let (ds, c2) := cached_apply t c1 in
      (with_category r v :: ds, c2)
  end.

(** One run of the page down to the dashboard. The caches keep what the
    run stored also when the column assignment raises. *)
Definition run_page (file : option (list Row)) (c : Cache)
  : result (option (list Derived)) * Cache :=
  let (o, c1) := cached_load_data file c in
  match o with
  | None => (Return None, c1)
  | Some df =>
      let (ds, c2) := cached_apply df c1 in
      ((t <- set_categories ds ;; Return (Some t)), c2)
  end.

(** A cache that holds only what the two functions return on this file. *)
Definition cache_sound (file : option (list Row)) (c : Cache) : Prop :=
  (forall v, load_data_cache c = Some v -> v = load_data file)
  /\ (forall k v, map_item_category_cache c !! k = Some v -> v = map_item_category k).

(** ** The classifier as the specification words it

    An ordered list of rules, each a group of patterns with the pair it
    yields; the first rule with a matching pattern decides, and a string no
    rule matches is [("Other", "other")]. *)

Module Reference.

Inductive pattern :=
| Has (keyword : string)
| Is (word : string).

Definition matches (s : string) (p : pattern) : bool :=
  match p with
  | Has k => PyStr.contains k s
  | Is w => String.eqb s w
  end.

Definition rule : Type := list pattern * (string * string).

Definition rules : list rule :=
  [ (map Has ["sandwich"; "soup"; "tacos/fajita"; "focaccia"; "scandinavian";
              "baguette"; "scone"; "bowl"; "toast"; "miso"; "truffle";
              "bacon"; "eggs"; "extra salami or feta"; "choc spread";
              "brownie"; "tiffin"; "spanish brunch"], ("Meal", "meal"));
    (map Has ["coffee"; "latte"; "espresso"; "cappuccino"], ("Drink", "coffee"));
    (map Has ["tea"; "hot chocolate"], ("Drink", "tea"));
    (map Has ["coke"; "juice"; "smoothies"; "fanta"], ("Drink", "sweet"));
    ([Is "bread"], ("Dessert", "bread"));
    (map Has ["cookies"; "biscotti"; "granola"], ("Dessert", "crunch"));
    (map Has ["cake"; "tart"; "fudge"], ("Dessert", "sweet"));
    (map Has ["pastry"; "medialuna"; "muffin"], ("Dessert", "soft")) ].

Fixpoint first_match (rs : list rule) (s : string) : string * string :=
  match rs with
  | [] => ("Other", "other")
  | (ps, res) :: rs' => if existsb (matches s) ps then res else first_match rs' s
  end.

Definition cascade (s : string) : string * string := first_match rules s.

(** The fixed two-level taxonomy. *)
Definition taxonomy : list (string * list string) :=
  [ ("Meal", ["meal"]);
    ("Drink", ["coffee"; "tea"; "sweet"]);
    ("Dessert", ["bread"; "crunch"; "sweet"; "soft"]);
    ("Other", ["other"]) ].

Definition in_taxonomy (p : string * string) : Prop :=
  exists subs, (fst p, subs) ∈ taxonomy /\ snd p ∈ subs.

(** The number of distinct transaction numbers, as the size of their set. *)
Definition distinct_count (col : list (option Z)) : nat :=
  size (list_to_set (omap id col) : gset Z).

End Reference.

(** ** Notions used in the statements *)

(** The rows a day-part query reads, as one pass over the frame: the item
    of a row of that day part, NaN for any other row. *)
Definition Items_at (daypart : string) (r : Derived) : cell :=
  if decide (Daypart (base r) = Some daypart) then Items (base r) else None.

(** A day part that is a value and not one of the categories. *)
Definition Daypart_outside (r : Row) : Prop :=
  match Daypart r with
  | Some s => s ∉ daypart_order
  | None => False
  end.

#[global] Instance Daypart_outside_dec (r : Row) : Decision (Daypart_outside r).
Proof. unfold Daypart_outside. destruct (Daypart r); apply _. Defined.

(** The rows of the table the dashboard works on; the page has a table
    when the file exists and this list is not empty. *)
Definition loaded (df : list Row) : list Derived :=
  map add_category (map set_Daypart (dropna_Items df)).

(** The count a counting table stores for a key, 0 when the key is absent. *)
Fixpoint stored (t : list (string * nat)) (y : string) : nat :=
  match t with
  | [] => 0
  | (k, n) :: t' => if decide (y = k) then n else stored t' y
  end.

(** [p] may stand before [q] in a list of falling counts. *)
Definition desc (p q : string * nat) : Prop := snd q <= snd p.

(** The order of the group keys. *)
Definition str_lt (a b : string) : Prop := String.compare a b = Lt.

(** What a run reads for a row from a cache that knows the row's item. *)
Definition from_cache (m : gmap cell (string * string)) (r : Row) : Derived :=
  match m !! Items r with
  | Some v => with_category r v
  | None => add_category r
  end.

(** ** Sample files *)

Definition sale (t : Z) (item daytype daypart : string) : Row :=
  {| TransactionNo := Some t; Items := Some item;
     DayType := Some daytype; Daypart := Some daypart |}.

(** A file without a weekend row. *)
Definition weekday_only : list Row := [sale 1 "Bread" "Weekday" "Morning"].

(** Three rows of two transactions. *)
Definition shared_transaction : list Row :=
  [sale 1 "Bread" "Weekday" "Morning";
   sale 1 "Coffee" "Weekday" "Morning";
   sale 2 "Tea" "Weekday" "Afternoon"].

Definition both_kinds : list Row :=
  [sale 1 "Bread" "Weekday" "Morning";
   sale 2 "Coffee" "Weekend" "Morning";
   sale 3 "Tea" "Weekend" "Afternoon"].

(** Morning sales with two ties, one row without an item and one row whose
    day part is no category. *)
Definition morning_sales : list Row :=
  [sale 1 "Tea" "Weekday" "Morning";
   sale 1 "Bread" "Weekday" "Morning";
   sale 2 "Coffee" "Weekday" "Morning";
   sale 3 "Scone" "Weekday" "Brunch";
   {| TransactionNo := Some 3%Z; Items := None;
      DayType := Some "Weekday"; Daypart := Some "Morning" |};
   sale 4 "Coffee" "Weekend" "Morning";
   sale 4 "Cake" "Weekend" "Night";
   sale 5 "Bread" "Weekend" "Morning"].

(** ** The widgets of the first tab *)

(** The options of the category radio. *)
Definition item_category_options : list string := ["Dessert"; "Drink"; "Meal"].

Definition sub_category_map : gmap string (list string) :=
  <["Meal" := ["meal"]]>
    (<["Drink" := ["sweet"; "coffee"; "tea"]]>
       (<["Dessert" := ["sweet"; "crunch"; "soft"; "bread"]]> ∅)).

(** [sub_category_map[item_category]], the options of the sub-category
    select box; [None] is [KeyError]. *)
Definition sub_category_options (item_category : string) : option (list string) :=
  sub_category_map !! item_category.

(** ** Further notions used in the statements *)

(** The rows a category query reads, as one pass over the frame. *)
Definition Items_in (category sub : string) (r : Derived) : cell :=
  if decide (Category r = category /\ Sub_Category r = sub)
  then Items (base r) else None.

(** The number of distinct values of a column of names. *)
Definition distinct_items (l : list string) : nat :=
  size (list_to_set l : gset string).

(** A string of white space only. *)
Fixpoint all_space (s : string) : bool :=
  match s with
  | EmptyString => true
  | String c t => PyStr.is_space c && all_space t
  end.

(** The two colours of the bar chart. *)
Definition dark_pink : string := "#E36496".
Definition light_pink : string := "#FADADD".

(** A file with as many weekend as weekday transactions. *)
Definition tie_sales : list Row :=
  [sale 1 "Bread" "Weekday" "Morning";
   sale 2 "Coffee" "Weekend" "Morning";
   sale 2 "Tea" "Weekend" "Afternoon"].

(** A file with a third day type that outnumbers the two others. *)
Definition holiday_sales : list Row :=
  [sale 1 "Bread" "Weekday" "Morning";
   sale 2 "Coffee" "Weekend" "Morning";
   sale 3 "Tea" "Weekend" "Afternoon";
   sale 4 "Cake" "Holiday" "Morning";
   sale 5 "Cake" "Holiday" "Night";
   sale 6 "Cake" "Holiday" "Night"].

(** * Facts about the embedding *)

Section StringFacts.

Lemma append_nil (b : string) : String.append EmptyString b = b.
Proof. reflexivity. Qed.

Lemma append_cons (c : ascii) (a b : string) :
  String.append (String c a) b = String c (String.append a b).
Proof. reflexivity. Qed.

Lemma prefix_app (m s : string) :
  String.prefix m s = true <-> exists b, s = String.append m b.
Proof.
  revert s. induction m as [|c m IH]; intros s.
  - destruct s; simpl; split; eauto.
  - destruct s as [|d s]; simpl.
    + split; [discriminate | intros [b Hb]; rewrite append_cons in Hb; discriminate].
    + destruct (ascii_dec c d) as [->|Hne].
      * rewrite IH. split; intros [b Hb]; exists b; rewrite append_cons in *; congruence.
      * split; [discriminate | intros [b Hb]; rewrite append_cons in Hb; congruence].
Qed.

Lemma contains_nil (m : string) :
  PyStr.contains m EmptyString = String.prefix m EmptyString.
Proof. simpl. apply orb_false_r. Qed.

Lemma contains_cons (m : string) (c : ascii) (s : string) :
  PyStr.contains m (String c s)
  = String.prefix m (String c s) || PyStr.contains m s.
Proof. reflexivity. Qed.

(** [contains m s] holds exactly when [m] occurs in [s]. *)
Lemma contains_occurs (m s : string) :
  PyStr.contains m s = true
  <-> exists a b, s = String.append a (String.append m b).
Proof.
  induction s as [|c s IH].
  - rewrite contains_nil, prefix_app. split.
    + intros [b Hb]. exists EmptyString, b. exact Hb.
    + intros [a [b Hb]]. destruct a; [eauto | rewrite append_cons in Hb; discriminate].
  - rewrite contains_cons, orb_true_iff, IH, prefix_app. split.
    + intros [[b Hb] | [a [b Hb]]].
      * exists EmptyString, b. exact Hb.
      * exists (String c a), b. rewrite append_cons. congruence.
    + intros [a [b Hb]]. destruct a as [|d a].
      * left. eauto.
      * right. exists a, b. rewrite append_cons in Hb. congruence.
Qed.

Lemma lower_char_idem (c : ascii) :
  PyStr.lower_char (PyStr.lower_char c) = PyStr.lower_char c.
Proof. destruct c as [[] [] [] [] [] [] [] []]; reflexivity. Qed.

Lemma lower_idem (s : string) : PyStr.lower (PyStr.lower s) = PyStr.lower s.
Proof. induction s; simpl; [|rewrite lower_char_idem]; congruence. Qed.

End StringFacts.

Section ClassifierFacts.

Lemma existsb_Permutation {A} (f : A -> bool) (l1 l2 : list A) :
  l1 ≡ₚ l2 -> existsb f l1 = existsb f l2.
Proof.
  induction 1; simpl; try congruence.
  destruct (f x), (f y); reflexivity.
Qed.

Lemma existsb_Has (s : string) (ks : list string) :
  existsb (Reference.matches s) (map Reference.Has ks)
  = existsb (fun k => PyStr.contains k s) ks.
Proof. induction ks; simpl; congruence. Qed.

Lemma meals_reordered :
  meals ≡ₚ ["sandwich"; "soup"; "tacos/fajita"; "focaccia"; "scandinavian";
            "baguette"; "scone"; "bowl"; "toast"; "miso"; "truffle";
            "bacon"; "eggs"; "extra salami or feta"; "choc spread";
            "brownie"; "tiffin"; "spanish brunch"].
Proof. unfold meals. apply perm_skip. apply Permutation_cons_append. Qed.

Lemma category_of_cascade (s : string) : category_of s = Reference.cascade s.
Proof.
  unfold category_of, Reference.cascade, Reference.rules, Reference.first_match.
  rewrite !existsb_Has, <- (existsb_Permutation _ _ _ meals_reordered).
  destruct (existsb _ meals); [reflexivity|].
  simpl. rewrite !orb_false_r, !orb_assoc. reflexivity.
Qed.

Ltac pick_elem :=
  solve [ repeat first [ apply list_elem_of_here | apply list_elem_of_further ] ].

Lemma category_of_taxonomy (s : string) : Reference.in_taxonomy (category_of s).
Proof.
  unfold category_of, Reference.in_taxonomy, Reference.taxonomy.
  repeat case_match; simpl; eexists; (split; [pick_elem | pick_elem]).
Qed.

Lemma category_of_bread (s : string) :
  category_of s = ("Dessert", "bread") <-> s = "bread".
Proof.
  split.
  - unfold category_of. repeat case_match; try discriminate.
    intros _. by apply String.eqb_eq.
  - intros ->. reflexivity.
Qed.

Lemma category_of_unmatched (s : string) :
  (forall r, r ∈ Reference.rules ->
             existsb (Reference.matches s) (fst r) = false) ->
  category_of s = ("Other", "other").
Proof.
  intros H. rewrite category_of_cascade. unfold Reference.cascade.
  induction Reference.rules as [|[ps res] rs IH]; [reflexivity|].
  simpl. pose proof (H (ps, res) (list_elem_of_here _ _)) as Hps.
  simpl in Hps. rewrite Hps.
  apply IH. intros r Hr. apply H. by apply list_elem_of_further.
Qed.

End ClassifierFacts.

Section LoadFacts.

Lemma Categorical_cases (cats : list string) (v : cell) :
  Categorical cats v = None
  \/ exists s, s ∈ cats /\ v = Some s /\ Categorical cats v = Some s.
Proof.
  destruct v as [s|]; simpl; [|by left].
  destruct (decide (s ∈ cats)); [right; eauto | by left].
Qed.

Lemma Categorical_outside (cats : list string) (s : string) :
  s ∉ cats -> Categorical cats (Some s) = None.
Proof. intros H. simpl. by destruct (decide (s ∈ cats)). Qed.

Lemma Categorical_inside (cats : list string) (s : string) :
  s ∈ cats -> Categorical cats (Some s) = Some s.
Proof. intros H. simpl. by destruct (decide (s ∈ cats)). Qed.

Lemma Categorical_Some (cats : list string) (v : cell) (s : string) :
  Categorical cats v = Some s <-> v = Some s /\ s ∈ cats.
Proof.
  destruct v as [t|]; simpl; [|split; [done | by intros [? _]]].
  destruct (decide (t ∈ cats)) as [Hin|Hout].
  - split; [by intros [= ->] | by intros [? _]].
  - split; [done | intros [[= ->] Hs]; done].
Qed.

Lemma elem_of_dropna_Items (df : list Row) (r : Row) :
  r ∈ dropna_Items df <-> r ∈ df /\ is_Some (Items r).
Proof. unfold dropna_Items. rewrite list_elem_of_filter. tauto. Qed.

Lemma Items_set_Daypart (r : Row) : Items (set_Daypart r) = Items r.
Proof. reflexivity. Qed.

(** A row whose day part is outside the categories never matches a day
    part once loaded. *)
Lemma Daypart_set_Daypart (r : Row) (d : string) :
  Daypart (set_Daypart r) = Some d <-> Daypart r = Some d /\ d ∈ daypart_order.
Proof. apply Categorical_Some. Qed.

End LoadFacts.

Section TallyFacts.

Implicit Types (t : list (string * nat)) (l : list string) (x y : string).

Lemma bump_keys x t :
  (bump x t).*1 = if decide (x ∈ t.*1) then t.*1 else t.*1 ++ [x].
Proof.
  induction t as [|[k n] t IH].
  - by rewrite decide_False by apply not_elem_of_nil.
  - cbn [bump]. destruct (decide (x = k)) as [->|Hne].
    + by rewrite decide_True by apply list_elem_of_here.
    + rewrite !fmap_cons, IH. cbn [fst].
      destruct (decide (x ∈ t.*1)) as [Hin|Hin].
      * by rewrite decide_True by (by apply list_elem_of_further).
      * rewrite decide_False; [done|].
        rewrite elem_of_cons. tauto.
Qed.

Lemma bump_NoDup x t : NoDup t.*1 -> NoDup (bump x t).*1.
Proof.
  intros H. rewrite bump_keys. destruct (decide (x ∈ t.*1)); [done|].
  apply NoDup_app. split_and!; [done | | apply NoDup_singleton].
  intros y Hy ->%list_elem_of_singleton. done.
Qed.

Lemma bump_stored x t y :
  stored (bump x t) y = if decide (y = x) then S (stored t y) else stored t y.
Proof.
  induction t as [|[k n] t IH]; simpl.
  - by destruct (decide (y = x)).
  - destruct (decide (x = k)) as [->|Hne]; simpl.
    + by destruct (decide (y = k)).
    + rewrite IH. destruct (decide (y = k)) as [->|]; [|done].
      by rewrite decide_False.
Qed.

Lemma stored_elem_of t y n : NoDup t.*1 -> (y, n) ∈ t -> stored t y = n.
Proof.
  induction t as [|[k m] t IH]; simpl; intros Hnd Hin.
  - by apply elem_of_nil in Hin.
  - apply NoDup_cons in Hnd as [Hk Hnd].
    apply elem_of_cons in Hin as [[= -> ->]|Hin].
    + by rewrite decide_True.
    + destruct (decide (y = k)) as [->|]; [|by apply IH].
      destruct Hk. apply list_elem_of_fmap. by exists (k, n).
Qed.

Lemma tally_from_cons x l t : tally_from t (x :: l) = tally_from (bump x t) l.
Proof. reflexivity. Qed.

Lemma tally_from_NoDup l t : NoDup t.*1 -> NoDup (tally_from t l).*1.
Proof.
  revert t. induction l as [|x l IH]; intros t H; [done|].
  apply IH. by apply bump_NoDup.
Qed.

Lemma tally_from_keys l t y :
  y ∈ (tally_from t l).*1 <-> y ∈ t.*1 \/ y ∈ l.
Proof.
  revert t. induction l as [|x l IH]; intros t.
  - rewrite elem_of_nil. simpl. tauto.
  - rewrite tally_from_cons, IH, bump_keys, elem_of_cons.
    destruct (decide (x ∈ t.*1)) as [Hin|Hin].
    + split; [tauto|]. intros [?|[->|?]]; tauto.
    + rewrite elem_of_app, list_elem_of_singleton. tauto.
Qed.

Lemma tally_from_stored l t y :
  stored (tally_from t l) y = stored t y + length (filter (fun z => z = y) l).
Proof.
  revert t. induction l as [|x l IH]; intros t.
  - rewrite filter_nil. simpl. lia.
  - rewrite tally_from_cons, IH, bump_stored, filter_cons.
    destruct (decide (y = x)) as [->|Hne].
    + rewrite decide_True by done. simpl. lia.
    + rewrite decide_False by congruence. done.
Qed.

Lemma tally_NoDup l : NoDup (tally l).*1.
Proof. apply tally_from_NoDup. constructor. Qed.

(** An entry of the table holds the number of occurrences of its key. *)
Lemma tally_elem_of l y n :
  (y, n) ∈ tally l -> y ∈ l /\ n = length (filter (fun z => z = y) l).
Proof.
  intros Hin. split.
  - assert (y ∈ (tally l).*1) as Hk.
    { apply list_elem_of_fmap. by exists (y, n). }
    apply tally_from_keys in Hk as [Hk|Hk]; [by apply elem_of_nil in Hk | done].
  - apply stored_elem_of in Hin; [|apply tally_NoDup].
    unfold tally in Hin. rewrite tally_from_stored in Hin. simpl in Hin. lia.
Qed.

(** Keys stand in the order in which they were first met. *)
Lemma tally_from_order l t a b :
  [a; b] `sublist_of` (tally_from t l).*1 ->
  [a; b] `sublist_of` t.*1
  \/ (a ∈ t.*1 /\ b ∉ t.*1)
  \/ ((a ∉ t.*1) /\ (b ∉ t.*1) /\ exists l1 l2, l = l1 ++ a :: l2 /\ b ∉ l1).
Proof.
  revert t. induction l as [|x l IH]; intros t Hsub; [by left|].
  rewrite tally_from_cons in Hsub.
  apply IH in Hsub. rewrite bump_keys in Hsub.
  destruct (decide (x ∈ t.*1)) as [Hx|Hx].
  - destruct Hsub as [?|[[Ha Hb]|(Ha & Hb & l1 & l2 & -> & Hb1)]];
      [by left | right; by left |].
    right; right. split_and!; [done..|].
    exists (x :: l1), l2. split; [done|].
    rewrite elem_of_cons. intros [->|?]; done.
  - destruct Hsub as [Hsub|[[Ha Hb]|(Ha & Hb & l1 & l2 & -> & Hb1)]].
    + apply sublist_app_r in Hsub as (k1 & k2 & Hk & Hk1 & Hk2).
      destruct k1 as [|a' [|b' k1]]; simplify_eq/=.
      * apply sublist_length in Hk2. simpl in Hk2. lia.
      * right; left. apply singleton_sublist_l in Hk1, Hk2.
        apply list_elem_of_singleton in Hk2 as ->. done.
      * destruct k1; [|done]. simplify_eq/=. by left.
    + rewrite elem_of_app, list_elem_of_singleton in Ha, Hb.
      destruct Ha as [Ha| ->].
      * right; left. tauto.
      * right; right. split_and!; [done | tauto |].
        exists [], l. split; [done | apply not_elem_of_nil].
    + rewrite elem_of_app, list_elem_of_singleton in Ha, Hb.
      right; right. split_and!; [tauto..|].
      exists (x :: l1), l2. split; [done|].
      rewrite elem_of_cons. intros [->|?]; tauto.
Qed.

Lemma tally_order l a b :
  [a; b] `sublist_of` (tally l).*1 ->
  exists l1 l2, l = l1 ++ a :: l2 /\ b ∉ l1.
Proof.
  intros H. apply tally_from_order in H as [H|[[H _]|(_ & _ & H)]]; simpl in *.
  - apply sublist_nil_r in H. done.
  - by apply elem_of_nil in H.
  - done.
Qed.

End TallyFacts.

Section SortFacts.

Implicit Types (p q : string * nat) (l : list (string * nat)).

Lemma insert_desc_Permutation p l : insert_desc p l ≡ₚ p :: l.
Proof.
  induction l as [|q l IH]; simpl; [done|].
  destruct (snd p <? snd q); [|done].
  rewrite IH. apply perm_swap.
Qed.

Lemma sort_desc_Permutation l : sort_desc l ≡ₚ l.
Proof.
  induction l as [|p l IH]; simpl; [done|].
  by rewrite insert_desc_Permutation, IH.
Qed.

Lemma insert_desc_sorted p l :
  StronglySorted desc l -> StronglySorted desc (insert_desc p l).
Proof.
  induction 1 as [|q l Hs IH Hq]; simpl.
  - repeat constructor.
  - destruct (Nat.ltb_spec (snd p) (snd q)) as [Hlt|Hge].
    + constructor; [done|].
      rewrite insert_desc_Permutation. constructor; [|done].
      unfold desc. lia.
    + constructor; [by constructor|].
      constructor; [done|].
      eapply Forall_impl; [exact Hq|]. unfold desc. intros; simpl in *; lia.
Qed.

Lemma sort_desc_sorted l : StronglySorted desc (sort_desc l).
Proof.
  induction l as [|p l IH]; simpl; [constructor|].
  by apply insert_desc_sorted.
Qed.

(** Entries of one count keep their order through the sort. *)
Lemma insert_desc_stable n p l :
  filter (fun q => snd q = n) (insert_desc p l)
  = filter (fun q => snd q = n) (p :: l).
Proof.
  induction l as [|q l IH]; simpl; [done|].
  destruct (Nat.ltb_spec (snd p) (snd q)) as [Hlt|Hge]; [|done].
  rewrite filter_cons, IH, !filter_cons.
  destruct (decide (snd q = n)), (decide (snd p = n)); try done; lia.
Qed.

Lemma sort_desc_stable n l :
  filter (fun q => snd q = n) (sort_desc l) = filter (fun q => snd q = n) l.
Proof.
  induction l as [|p l IH]; simpl; [done|].
  by rewrite insert_desc_stable, !filter_cons, IH.
Qed.

Lemma sort_desc_order n a b l :
  [(a, n); (b, n)] `sublist_of` sort_desc l -> [(a, n); (b, n)] `sublist_of` l.
Proof.
  intros H.
  assert ([(a, n); (b, n)] `sublist_of` filter (fun q => snd q = n) (sort_desc l)) as Hf.
  { apply sublist_cons_l in H as (k1 & k2 & -> & H).
    apply sublist_cons_l in H as (k3 & k4 & -> & _).
    rewrite filter_app, filter_cons_True by done.
    rewrite filter_app, filter_cons_True by done.
    apply sublist_inserts_l, sublist_skip, sublist_inserts_l, sublist_skip.
    apply sublist_nil_l. }
  rewrite sort_desc_stable in Hf.
  etrans; [exact Hf | apply sublist_filter].
Qed.

End SortFacts.

Section ListFacts.

Context {A : Type}.

Lemma lookup_lt_sublist (l : list A) (i j : nat) (x y : A) :
  i < j -> l !! i = Some x -> l !! j = Some y -> [x; y] `sublist_of` l.
Proof.
  intros Hij Hi Hj.
  rewrite <- (take_drop_middle l i x Hi).
  apply sublist_inserts_l, sublist_skip, singleton_sublist_l.
  apply list_elem_of_lookup. exists (j - S i).
  rewrite lookup_drop. rewrite <- Hj. f_equal. lia.
Qed.

Lemma StronglySorted_lookup (R : relation A) (l : list A) (i j : nat) (x y : A) :
  StronglySorted R l -> i < j -> l !! i = Some x -> l !! j = Some y -> R x y.
Proof.
  intros Hs. revert i j. induction Hs as [|z l Hs IH Hz]; intros i j Hij Hi Hj.
  - done.
  - destruct j as [|j]; [lia|]. simpl in Hj. destruct i as [|i].
    + simpl in Hi. simplify_eq. rewrite Forall_forall in Hz.
      apply Hz. by eapply list_elem_of_lookup_2.
    + simpl in Hi. apply (IH i j); [lia | done..].
Qed.

Lemma StronglySorted_take (R : relation A) (l : list A) (n : nat) :
  StronglySorted R l -> StronglySorted R (take n l).
Proof.
  intros Hs. rewrite <- (take_drop n l) in Hs.
  by apply StronglySorted_app_1_l in Hs.
Qed.

Lemma omap_split {B} (f : A -> option B) (l : list A) (k1 k2 : list B) (b : B) :
  omap f l = k1 ++ b :: k2 ->
  exists l1 x l2, l = l1 ++ x :: l2 /\ f x = Some b /\ omap f l1 = k1.
Proof.
  revert k1. induction l as [|y l IH]; intros k1 H.
  - by destruct k1.
  - simpl in H. destruct (f y) as [c|] eqn:Hy.
    + destruct k1 as [|c' k1]; injection H as -> H.
      * exists [], y, l. done.
      * destruct (IH _ H) as (l1 & x & l2 & -> & Hx & Hk).
        exists (y :: l1), x, l2. split_and!; [done..|].
        cbn [omap list_omap]. rewrite Hy. by rewrite Hk.
    + destruct (IH _ H) as (l1 & x & l2 & -> & Hx & Hk).
      exists (y :: l1), x, l2. simpl. rewrite Hy. done.
Qed.

End ListFacts.

Section GroupFacts.

Lemma str_lt_trans a b c : str_lt a b -> str_lt b c -> str_lt a c.
Proof.
  unfold str_lt. rewrite !String_as_OT.cmp_lt. apply String_as_OT.lt_trans.
Qed.

Lemma str_lt_irrefl a : ~ str_lt a a.
Proof.
  unfold str_lt. intros H.
  assert (String.compare a a = Eq) as He by (by apply String_as_OT.cmp_eq).
  congruence.
Qed.

Lemma str_gt_lt a b : String.compare a b = Gt -> str_lt b a.
Proof.
  unfold str_lt. intros H. rewrite String.compare_antisym, H. done.
Qed.

Lemma elem_of_insert_key k l x : x ∈ insert_key k l <-> x = k \/ x ∈ l.
Proof.
  induction l as [|h l IH]; simpl.
  - rewrite list_elem_of_singleton, elem_of_nil. tauto.
  - destruct (String.compare k h) eqn:Hc.
    + apply String.compare_eq_iff in Hc as ->.
      rewrite elem_of_cons. tauto.
    + rewrite !elem_of_cons. tauto.
    + rewrite !elem_of_cons, IH. tauto.
Qed.

Lemma insert_key_sorted k l :
  StronglySorted str_lt l -> StronglySorted str_lt (insert_key k l).
Proof.
  induction 1 as [|h l Hs IH Hh]; simpl.
  - repeat constructor.
  - destruct (String.compare k h) eqn:Hc.
    + by constructor.
    + constructor; [by constructor|].
      constructor; [done|].
      eapply Forall_impl; [exact Hh|]. intros x Hx. by eapply str_lt_trans.
    + constructor; [done|].
      rewrite Forall_forall. intros x [->|Hx]%elem_of_insert_key.
      * by apply str_gt_lt.
      * rewrite Forall_forall in Hh. by apply Hh.
Qed.

Lemma StronglySorted_str_lt_NoDup l : StronglySorted str_lt l -> NoDup l.
Proof.
  induction 1 as [|h l Hs IH Hh]; constructor; [|done].
  intros Hin. rewrite Forall_forall in Hh.
  by apply (str_lt_irrefl h), Hh.
Qed.

Lemma group_keys_sorted (col : list cell) : StronglySorted str_lt (group_keys col).
Proof.
  induction col as [|[k|] col IH]; simpl; [constructor | | done].
  by apply insert_key_sorted.
Qed.

Lemma group_keys_NoDup (col : list cell) : NoDup (group_keys col).
Proof. apply StronglySorted_str_lt_NoDup, group_keys_sorted. Qed.

Lemma elem_of_group_keys (col : list cell) (k : string) :
  k ∈ group_keys col <-> Some k ∈ col.
Proof.
  induction col as [|[h|] col IH]; simpl.
  - by rewrite !elem_of_nil.
  - rewrite elem_of_insert_key, elem_of_cons, IH.
    split; intros [H|H]; auto; [left | left]; congruence.
  - rewrite elem_of_cons, IH. split; [auto | intros [?|?]; [done | auto]].
Qed.

(** A frame with one row per distinct key holds at most one row for a key. *)
Lemma filter_key_fmap {B} (f : string -> B) (keys : list string) (k : string) :
  NoDup keys ->
  filter (fun p => fst p = k) (map (fun k' => (k', f k')) keys)
  = if decide (k ∈ keys) then [(k, f k)] else [].
Proof.
  induction 1 as [|h keys Hh Hnd IH]; simpl; [done|].
  rewrite filter_cons. simpl. destruct (decide (h = k)) as [->|Hne].
  - rewrite decide_True by apply list_elem_of_here.
    rewrite IH, decide_False by done. done.
  - rewrite IH. destruct (decide (k ∈ keys)) as [Hin|Hin].
    + by rewrite decide_True by (by apply list_elem_of_further).
    + rewrite decide_False; [done|]. rewrite elem_of_cons. by intros [?|?].
Qed.

Lemma nunique_distinct_count (col : list (option Z)) :
  nunique col = Reference.distinct_count col.
Proof.
  unfold nunique, Reference.distinct_count.
  rewrite <- (size_list_to_set (C := gset Z) (remove_dups (omap id col)))
    by apply NoDup_remove_dups.
  f_equal. apply set_eq. intros x.
  by rewrite !elem_of_list_to_set, elem_of_remove_dups.
Qed.

Lemma DayType_present (df : list Derived) (k : string) :
  Some k ∈ map (fun r => DayType (base r)) df
  <-> exists r, r ∈ df /\ DayType (base r) = Some k.
Proof.
  change (map ?f df) with (f <$> df). rewrite list_elem_of_fmap.
  split; intros (r & H1 & H2); exists r; done.
Qed.

Lemma Total_Transactions_of_sales (df : list Derived) (k : string) :
  Total_Transactions_of (sales_by_day df) k
  = if decide (Some k ∈ map (fun r => DayType (base r)) df)
    then [nunique (TransactionNo_of df k)]
    else [].
Proof.
  unfold Total_Transactions_of, sales_by_day.
  rewrite filter_key_fmap by apply group_keys_NoDup.
  destruct (decide (k ∈ group_keys _)) as [Hin|Hin];
    rewrite elem_of_group_keys in Hin.
  - by rewrite decide_True.
  - by rewrite decide_False.
Qed.

End GroupFacts.

Section CacheFacts.

Implicit Types (c : Cache) (df : list Row) (m : gmap cell (string * string)).

Lemma cached_map_item_category_grows item c :
  let (v, c') := cached_map_item_category item c in
  load_data_cache c' = load_data_cache c
  /\ map_item_category_cache c ⊆ map_item_category_cache c'
  /\ map_item_category_cache c' !! item = Some v.
Proof.
  unfold cached_map_item_category.
  destruct (map_item_category_cache c !! item) as [v|] eqn:Hm; simpl.
  - done.
  - split_and!; [done | by apply insert_subseteq | apply lookup_insert_eq].
Qed.

(** A pass over the rows only adds entries, and afterwards the cache holds
    for every row the pair the pass gave it. *)
Lemma cached_apply_grows df c :
  let (ds, c') := cached_apply df c in
  load_data_cache c' = load_data_cache c
  /\ map_item_category_cache c ⊆ map_item_category_cache c'
  /\ ds = map (from_cache (map_item_category_cache c')) df
  /\ Forall (fun r => is_Some (map_item_category_cache c' !! Items r)) df.
Proof.
  revert c. induction df as [|r df IH]; intros c; simpl.
  - done.
  - pose proof (cached_map_item_category_grows (Items r) c) as H1.
    destruct (cached_map_item_category (Items r) c) as [v c1].
    destruct H1 as (Hl1 & Hs1 & Hv).
    specialize (IH c1). destruct (cached_apply df c1) as [ds c2].
    destruct IH as (Hl2 & Hs2 & Hds & Hall).
    assert (map_item_category_cache c2 !! Items r = Some v) as Hv2.
    { eapply lookup_weaken; eauto. }
    split_and!.
    + congruence.
    + by etrans.
    + unfold from_cache at 1. rewrite Hv2. by f_equal.
    + constructor; [by rewrite Hv2 | done].
Qed.

(** A pass over rows the cache already knows reads the cache and leaves it
    as it is. *)
Lemma cached_apply_hit df c :
  Forall (fun r => is_Some (map_item_category_cache c !! Items r)) df ->
  cached_apply df c = (map (from_cache (map_item_category_cache c)) df, c).
Proof.
  induction 1 as [|r df [v Hv] Hall IH]; simpl; [done|].
  unfold cached_map_item_category. rewrite Hv, IH.
  unfold from_cache at 2. by rewrite Hv.
Qed.

Lemma cached_apply_sound df c :
  (forall k v, map_item_category_cache c !! k = Some v -> v = map_item_category k) ->
  let (ds, c') := cached_apply df c in
  ds = map add_category df
  /\ (forall k v, map_item_category_cache c' !! k = Some v -> v = map_item_category k).
Proof.
  revert c. induction df as [|r df IH]; intros c Hc; simpl; [done|].
  unfold cached_map_item_category.
  destruct (map_item_category_cache c !! Items r) as [v|] eqn:Hm.
  - specialize (IH c Hc). destruct (cached_apply df c) as [ds c2].
    destruct IH as [-> Hc2]. split; [|done].
    f_equal. rewrite (Hc _ _ Hm). done.
  - match goal with |- context [cached_apply df ?c1] => specialize (IH c1) end.
    simpl in IH.
    match type of IH with ?P -> _ => assert P as HP end.
    { intros k v. rewrite lookup_insert. case_decide; [|by apply Hc].
      intros [= <-]. by subst. }
    specialize (IH HP).
    match goal with |- context [cached_apply df ?c1] =>
      destruct (cached_apply df c1) as [ds c2] end.
    destruct IH as [-> Hc2]. done.
Qed.

(** Two runs in a row over the same file show the same table. *)
Lemma run_page_twice file c :
  (run_page file (run_page file c).2).1 = (run_page file c).1.
Proof.
  unfold run_page, cached_load_data.
  destruct (load_data_cache c) as [o|] eqn:Hl.
  - destruct o as [df|]; simpl.
    + pose proof (cached_apply_grows df c) as H.
      destruct (cached_apply df c) as [ds c2]. simpl.
      destruct H as (Hl2 & _ & -> & Hall).
      rewrite Hl2, Hl. by rewrite cached_apply_hit.
    + by rewrite Hl.
  - destruct (load_data file) as [df|]; simpl; [|done].
    match goal with |- context [cached_apply df ?c1] =>
      pose proof (cached_apply_grows df c1) as H;
      destruct (cached_apply df c1) as [ds c2] end.
    simpl in *. destruct H as (Hl2 & _ & -> & Hall).
    rewrite Hl2. by rewrite cached_apply_hit.
Qed.

(** From a sound cache a run shows the table of the file and leaves a
    sound cache. *)
Lemma run_page_sound file c :
  cache_sound file c ->
  (run_page file c).1 = derived_table file
  /\ cache_sound file (run_page file c).2.
Proof.
  intros [Hload Hitem]. unfold run_page, cached_load_data, derived_table.
  destruct (load_data_cache c) as [o|] eqn:Hl.
  - rewrite <- (Hload o eq_refl). destruct o as [df|].
    + pose proof (cached_apply_sound df c Hitem) as H.
      pose proof (cached_apply_grows df c) as G.
      destruct (cached_apply df c) as [ds c2]. simpl.
      destruct H as [-> Hc2]. destruct G as (Hl2 & _).
      split; [done|]. split; [|done]. by rewrite Hl2, Hl.
    + simpl. split; [done|]. split; [|done]. by rewrite Hl.
  - destruct (load_data file) as [df|] eqn:Hf.
    + match goal with |- context [cached_apply df ?c1] =>
        pose proof (cached_apply_sound df c1 Hitem) as H;
        pose proof (cached_apply_grows df c1) as G;
        destruct (cached_apply df c1) as [ds c2] end.
      simpl in *. destruct H as [-> Hc2]. destruct G as (Hl2 & _).
      split; [done|]. split; [|done]. rewrite Hl2. intros v [= <-]. done.
    + simpl. split; [done|]. split; [|done]. simpl. intros v [= <-]. done.
Qed.

Lemma empty_cache_sound file : cache_sound file empty_cache.
Proof. split; [done|]. intros k v. simpl. by rewrite lookup_empty. Qed.

End CacheFacts.

Section AggregatorFacts.

Lemma tab2_weekend_missing (df : list Derived) :
  Some "Weekend" ∉ map (fun r => DayType (base r)) df ->
  tab2 df = Raise IndexError.
Proof.
  intros H. unfold tab2. rewrite Total_Transactions_of_sales.
  by rewrite decide_False.
Qed.

Lemma tab2_weekday_missing (df : list Derived) :
  Some "Weekday" ∉ map (fun r => DayType (base r)) df ->
  tab2 df = Raise IndexError.
Proof.
  intros H. unfold tab2. rewrite !Total_Transactions_of_sales.
  rewrite (decide_False (P := Some "Weekday" ∈ _)) by done.
  by destruct (decide (Some "Weekend" ∈ _)).
Qed.

Lemma tab2_Return (df : list Derived) (c : Comparison) :
  tab2 df = Return c ->
  Some "Weekend" ∈ map (fun r => DayType (base r)) df
  /\ Some "Weekday" ∈ map (fun r => DayType (base r)) df
  /\ weekend_sales c = nunique (TransactionNo_of df "Weekend")
  /\ weekday_sales c = nunique (TransactionNo_of df "Weekday")
  /\ winner c = winner_of (weekend_sales c) (weekday_sales c).
Proof.
  unfold tab2. rewrite !Total_Transactions_of_sales.
  destruct (decide (Some "Weekend" ∈ _)) as [Hwe|Hwe]; [|done].
  destruct (decide (Some "Weekday" ∈ _)) as [Hwd|Hwd]; [|done].
  simpl. intros [= <-]. simpl. done.
Qed.

Lemma winner_of_Weekend (we wd : nat) : winner_of we wd = Weekend <-> wd < we.
Proof.
  unfold winner_of. destruct (Nat.ltb_spec wd we); split; try done; lia.
Qed.

Lemma winner_of_tie (n : nat) : winner_of n n = Weekday.
Proof. unfold winner_of. by rewrite Nat.ltb_irrefl. Qed.

Lemma value_counts_nil (col : list cell) :
  omap id col = [] -> value_counts col = [].
Proof. unfold value_counts. by intros ->. Qed.

Lemma Items_of_daypart_omap (df : list Derived) (d : string) :
  omap id (Items_of_daypart df d) = omap (Items_at d) df.
Proof.
  unfold Items_of_daypart. induction df as [|r df IH]; [done|].
  rewrite filter_cons. cbn [omap list_omap]. unfold Items_at at 1.
  destruct (decide (Daypart (base r) = Some d)); [|exact IH].
  rewrite map_cons. cbn [omap list_omap id]. by rewrite IH.
Qed.

Lemma Items_at_Some (d : string) (r : Derived) (x : string) :
  Items_at d r = Some x <-> Daypart (base r) = Some d /\ Items (base r) = Some x.
Proof.
  unfold Items_at. destruct (decide _) as [Hd|Hd]; [tauto|].
  split; [done | by intros [? _]].
Qed.

Lemma length_filter_omap {A} (f : A -> option string) (l : list A) (x : string) :
  length (filter (fun z => z = x) (omap f l))
  = length (filter (fun a => f a = Some x) l).
Proof.
  induction l as [|a l IH]; [done|].
  rewrite filter_cons. cbn [omap list_omap]. destruct (f a) as [y|] eqn:Hy.
  - rewrite filter_cons.
    destruct (decide (y = x)) as [->|Hne].
    + rewrite decide_True by done. cbn [length]. by rewrite IH.
    + rewrite decide_False by congruence. done.
  - rewrite decide_False by done. done.
Qed.

End AggregatorFacts.

(** * The loaded table and empty results *)

Section LoadedFacts.

Lemma derived_table_loaded (df : list Row) :
  derived_table (Some df) = (t <- set_categories (loaded df) ;; Return (Some t)).
Proof. reflexivity. Qed.

(** The page has a table exactly when some row of the file has an item. *)
Lemma derived_table_Return (df : list Row) (t : list Derived) :
  derived_table (Some df) = Return (Some t) <-> t = loaded df /\ loaded df <> [].
Proof.
  rewrite derived_table_loaded. destruct (loaded df) as [|r l]; simpl.
  - split; [done | by intros [_ ?]].
  - split; [by intros [= <-] | by intros [-> _]].
Qed.

Lemma derived_table_Raise (df : list Row) :
  derived_table (Some df) = Raise ValueError <-> loaded df = [].
Proof.
  rewrite derived_table_loaded. by destruct (loaded df) as [|r l].
Qed.

Lemma loaded_nil_iff (df : list Row) :
  loaded df = [] <-> forall r, r ∈ df -> Items r = None.
Proof.
  unfold loaded. split.
  - intros Hnil r Hr. destruct (Items r) as [s|] eqn:Hs; [|done].
    assert (r ∈ dropna_Items df) as Hin.
    { apply elem_of_dropna_Items. rewrite Hs. eauto. }
    destruct (dropna_Items df); [by apply elem_of_nil in Hin | done].
  - intros Hno. assert (dropna_Items df = []) as ->; [|done].
    apply elem_of_nil_inv. intros r [Hr [s Hs]]%elem_of_dropna_Items.
    rewrite (Hno r Hr) in Hs. done.
Qed.

Lemma loaded_cons (r : Row) (df : list Row) :
  loaded (r :: df)
  = if decide (is_Some (Items r))
    then add_category (set_Daypart r) :: loaded df
    else loaded df.
Proof.
  unfold loaded, dropna_Items. rewrite filter_cons.
  by destruct (decide (is_Some (Items r))).
Qed.

Lemma Items_of_daypart_cons (r : Derived) (t : list Derived) (d : string) :
  Items_of_daypart (r :: t) d
  = if decide (Daypart (base r) = Some d)
    then Items (base r) :: Items_of_daypart t d
    else Items_of_daypart t d.
Proof.
  unfold Items_of_daypart. rewrite filter_cons.
  by destruct (decide (Daypart (base r) = Some d)).
Qed.

Lemma Daypart_outside_loaded (r : Row) (d : string) :
  Daypart_outside r -> Daypart (set_Daypart r) <> Some d.
Proof.
  unfold Daypart_outside. intros H Hd.
  apply Daypart_set_Daypart in Hd as [Hd Hin]. rewrite Hd in H. done.
Qed.

(** Taking the rows with a day part outside the categories out of the file
    changes no column a day-part query counts. *)
Lemma Items_of_daypart_outside (df : list Row) (d : string) :
  Items_of_daypart (loaded (filter (fun r => ~ Daypart_outside r) df)) d
  = Items_of_daypart (loaded df) d.
Proof.
  induction df as [|r df IH]; [done|].
  rewrite filter_cons, (loaded_cons r df).
  destruct (decide (~ Daypart_outside r)) as [Hin|Hout].
  - rewrite loaded_cons.
    destruct (decide (is_Some (Items r))); [|done].
    rewrite !Items_of_daypart_cons, IH. done.
  - destruct (decide (is_Some (Items r))); [|done].
    rewrite Items_of_daypart_cons, decide_False, IH; [done|].
    apply Daypart_outside_loaded. by destruct (decide (Daypart_outside r)).
Qed.

Lemma filter_no_match {A} (P : A -> Prop) `{!forall x, Decision (P x)} (l : list A) :
  (forall x, x ∈ l -> ~ P x) -> filter P l = [].
Proof.
  induction l as [|a l IH]; intros Hno; [done|].
  rewrite filter_cons_False by (apply Hno, list_elem_of_here).
  apply IH. intros x Hx. by apply Hno, list_elem_of_further.
Qed.

(** A filter that no row passes leaves nothing to count. *)
Lemma topItemsByDaypart_no_match (df : list Derived) (d : string) (limit : nat) :
  (forall r, r ∈ df -> Daypart (base r) <> Some d) ->
  topItemsByDaypart df d limit = [].
Proof.
  intros H. unfold topItemsByDaypart, Items_of_daypart.
  rewrite filter_no_match by exact H. apply take_nil.
Qed.

Lemma topItemsByCategory_no_match (df : list Derived) (c s : string) (limit : nat) :
  (forall r, r ∈ df -> ~ (Category r = c /\ Sub_Category r = s)) ->
  topItemsByCategory df c s limit = [].
Proof.
  intros H. unfold topItemsByCategory, Items_of_category.
  rewrite filter_no_match by exact H. apply take_nil.
Qed.

Lemma transactionCountByDayType_nil : transactionCountByDayType [] = [].
Proof. reflexivity. Qed.

End LoadedFacts.

(** * Worked examples *)

Example classify_padded :
  normalize (Some "  Hot Chocolate ") = "hot chocolate"
  /\ map_item_category (Some "  Hot Chocolate ") = ("Drink", "tea").
Proof. split; reflexivity. Qed.

Example classify_missing_item : map_item_category None = ("Other", "other").
Proof. reflexivity. Qed.

(** Coffee and Bread were sold twice, Tea once; Bread was seen before
    Coffee, the row without an item and the Brunch row are not counted. *)
Example morning_top_items :
  topItemsByDaypart (loaded morning_sales) "Morning" 5
  = [("Bread", 2); ("Coffee", 2); ("Tea", 1)]
  /\ topItemsByDaypart (loaded morning_sales) "Morning" 2
     = [("Bread", 2); ("Coffee", 2)]
  /\ topItemsByDaypart (loaded morning_sales) "Brunch" 5 = [].
Proof. split_and!; reflexivity. Qed.

Example morning_sales_by_day :
  sales_by_day (loaded morning_sales) = [("Weekday", 3); ("Weekend", 2)]
  /\ compareWeekendVsWeekday (loaded morning_sales) = Return (2, 3, Weekday).
Proof. split; reflexivity. Qed.

(** * The claims *)

(** Claim C1. The three ranking and counting queries answer a filter that
    nothing matches with an empty result, but the weekend against weekday
    comparison does not: on the table of a file that has no weekend row the
    first [.iloc[0]] raises [IndexError]. *)
Theorem compare_raises_on_weekday_only :
  exists t,
    derived_table (Some weekday_only) = Return (Some t)
    /\ topItemsByDaypart t "Night" 5 = []
    /\ topItemsByCategory t "Drink" "tea" 10 = []
    /\ Total_Transactions_of (transactionCountByDayType t) "Weekend" = []
    /\ compareWeekendVsWeekday t = Raise IndexError.
Proof. eexists. split; [reflexivity|]. vm_compute. done. Qed.

(** Claim C2. The classifier is the ordered rule cascade of the
    specification run on the lower-cased, trimmed item name; a name that
    holds a meal keyword is a meal whatever else it holds, as
    "sandwich coffee" is. *)
Theorem classify_is_reference_cascade :
  (forall item : cell, map_item_category item = Reference.cascade (normalize item))
  /\ (forall s : string,
        map_item_category (Some s) = Reference.cascade (PyStr.strip (PyStr.lower s)))
  /\ (forall (item : cell) (m : string),
        m ∈ meals -> PyStr.contains m (normalize item) = true ->
        map_item_category item = ("Meal", "meal"))
  /\ map_item_category (Some "sandwich coffee") = ("Meal", "meal").
Proof.
  split_and!.
  - intros item. apply category_of_cascade.
  - intros s. apply category_of_cascade.
  - intros item m Hm Hc. unfold map_item_category, category_of.
    assert (existsb (fun k => PyStr.contains k (normalize item)) meals = true) as ->.
    { apply existsb_exists. exists m. split; [by apply list_elem_of_In | done]. }
    done.
  - reflexivity.
Qed.

(** Claim C3. The count of a day type is the size of the set of the
    transaction numbers of its rows, not the number of those rows: three
    rows of two transactions count 2. *)
Theorem transaction_count_is_distinct (df : list Derived) (k : string) :
  Total_Transactions_of (transactionCountByDayType df) k
  = (if decide (Some k ∈ map (fun r => DayType (base r)) df)
     then [Reference.distinct_count (TransactionNo_of df k)]
     else [])
  /\ (forall n, (k, n) ∈ transactionCountByDayType df ->
        n = Reference.distinct_count (TransactionNo_of df k))
  /\ length (filter (fun r => DayType r = Some "Weekday") shared_transaction) = 3
  /\ transactionCountByDayType (loaded shared_transaction) = [("Weekday", 2)].
Proof.
  split_and!.
  - unfold transactionCountByDayType.
    by rewrite Total_Transactions_of_sales, nunique_distinct_count.
  - intros n Hin. unfold transactionCountByDayType, sales_by_day in Hin.
    apply list_elem_of_fmap in Hin as (k' & [= <- ->] & _).
    apply nunique_distinct_count.
  - reflexivity.
  - reflexivity.
Qed.

(** Claim C4. When the comparison returns, its two counts are the distinct
    transaction counts of the weekend and of the weekday rows, the winner is
    Weekend exactly when the weekend count is strictly larger, and a tie
    goes to Weekday: (120, 80) gives Weekend, (100, 100) gives Weekday. *)
Theorem winner_by_strict_greater (df : list Derived) (we wd : nat) (w : DayKind) :
  compareWeekendVsWeekday df = Return (we, wd, w) ->
  we = Reference.distinct_count (TransactionNo_of df "Weekend")
  /\ wd = Reference.distinct_count (TransactionNo_of df "Weekday")
  /\ (w = Weekend <-> wd < we)
  /\ (we = wd -> w = Weekday)
  /\ winner_of 120 80 = Weekend
  /\ winner_of 100 100 = Weekday.
Proof.
  unfold compareWeekendVsWeekday. destruct (tab2 df) as [c|e] eqn:Ht; [|done].
  simpl. intros [= <- <- <-].
  apply tab2_Return in Ht as (_ & _ & Hwe & Hwd & Hw).
  rewrite <- !nunique_distinct_count, Hw. split_and!; [done..| | |done|done].
  - apply winner_of_Weekend.
  - intros ->. apply winner_of_tie.
Qed.

Lemma winner_by_strict_greater_witness :
  compareWeekendVsWeekday (loaded both_kinds) = Return (2, 1, Weekend)
  /\ (Weekend = Weekend <-> 1 < 2).
Proof.
  split; [reflexivity|].
  apply (winner_by_strict_greater (loaded both_kinds) 2 1 Weekend).
  reflexivity.
Defined.

(** Claim C5. The ranking of a day part has at most [limit] entries, in
    falling order of count, one entry per item; an entry counts the rows of
    that day part that sell the item, so an item sold only at other day
    parts is not listed; and of two entries of equal count the one listed
    first is the one whose first sale at that day part comes first in the
    table. *)
Theorem topItemsByDaypart_ranked (df : list Derived) (d : string) (limit : nat) :
  let top := topItemsByDaypart df d limit in
  length top <= limit
  /\ (forall i j p q, i < j -> top !! i = Some p -> top !! j = Some q ->
        snd q <= snd p)
  /\ NoDup (map fst top)
  /\ (forall x n, (x, n) ∈ top ->
        0 < n
        /\ n = length (filter (fun r => Daypart (base r) = Some d
                                        /\ Items (base r) = Some x) df))
  /\ (forall i j a b n, i < j -> top !! i = Some (a, n) -> top !! j = Some (b, n) ->
        exists before r after,
          df = before ++ r :: after
          /\ Daypart (base r) = Some d /\ Items (base r) = Some a
          /\ forall r', r' ∈ before -> Daypart (base r') = Some d ->
                        Items (base r') <> Some b).
Proof.
  intros top. subst top. unfold topItemsByDaypart, value_counts.
  rewrite Items_of_daypart_omap.
  set (items := omap (Items_at d) df).
  split_and!.
  - rewrite length_take. lia.
  - intros i j p q Hij Hi Hj.
    change (desc p q).
    eapply StronglySorted_lookup; [|exact Hij|exact Hi|exact Hj].
    apply StronglySorted_take, sort_desc_sorted.
  - change (map fst ?l) with (l.*1).
    apply (sublist_NoDup _ ((sort_desc (tally items)).*1)).
    + rewrite sort_desc_Permutation. apply tally_NoDup.
    + apply fmap_sublist, sublist_take.
  - intros x n Hin.
    assert ((x, n) ∈ sort_desc (tally items)) as Hs.
    { eapply elem_of_sublist; [exact Hin | apply sublist_take]. }
    rewrite sort_desc_Permutation in Hs.
    apply tally_elem_of in Hs as [Hx ->]. subst items.
    rewrite length_filter_omap. split.
    + apply list_elem_of_omap in Hx as (r & Hr & Hx).
      apply list_elem_of_split in Hr as (l1 & l2 & ->).
      rewrite filter_app, filter_cons_True, length_app by done. simpl. lia.
    + f_equal. apply list_filter_iff. intros r. apply Items_at_Some.
  - intros i j a b n Hij Hi Hj.
    pose proof (lookup_lt_sublist _ i j _ _ Hij Hi Hj) as Hs.
    assert ([(a, n); (b, n)] `sublist_of` tally items) as Ht.
    { apply sort_desc_order. etrans; [exact Hs | apply sublist_take]. }
    assert ([a; b] `sublist_of` (tally items).*1) as Hk.
    { change [a; b] with ([(a, n); (b, n)].*1). by apply fmap_sublist. }
    apply tally_order in Hk as (l1 & l2 & Hl & Hb).
    apply omap_split in Hl as (before & r & after & -> & Hr & <-).
    apply Items_at_Some in Hr as [Hd Ha].
    exists before, r, after. split_and!; [done..|].
    intros r' Hr' Hd' Hb'. apply Hb.
    apply list_elem_of_omap. exists r'. split; [done|].
    apply Items_at_Some. done.
Qed.

(** Claim C6. The bread rule compares for equality: the classifier answers
    (Dessert, bread) exactly on the names whose normal form is "bread", so
    "bread" is (Dessert, bread) while "BREAD CRUMBS", which contains "bread",
    is (Other, other). *)
Theorem bread_rule_is_equality :
  map_item_category (Some "bread") = ("Dessert", "bread")
  /\ map_item_category (Some "BREAD CRUMBS") = ("Other", "other")
  /\ PyStr.contains "bread" (normalize (Some "BREAD CRUMBS")) = true
  /\ (forall item : cell,
        map_item_category item = ("Dessert", "bread") <-> normalize item = "bread").
Proof.
  split_and!; [reflexivity.. |].
  intros item. apply category_of_bread.
Qed.

(** Claim C7. Loading keeps exactly the rows that have an item, in their
    order and changed only in the day-part column: every loaded row has an
    item, and the rows left out are the rows without one. The table of the
    page, when it has one, is made of exactly the loaded rows; when no row
    of the file has an item there is no table, the column assignment
    raises [ValueError]. *)
Theorem load_drops_rows_without_items (df : list Row) :
  exists out,
    load_data (Some df) = Some out
    /\ Forall (fun r => exists s, Items r = Some s) out
    /\ out = map set_Daypart (filter (fun r => Items r <> None) df)
    /\ (forall r, r ∈ df -> Items r <> None -> set_Daypart r ∈ out)
    /\ length out + length (filter (fun r => Items r = None) df) = length df
    /\ (out <> [] -> derived_table (Some df) = Return (Some (map add_category out)))
    /\ (out = [] -> derived_table (Some df) = Raise ValueError)
    /\ (forall t, derived_table (Some df) = Return (Some t) ->
          map base t = out
          /\ Forall (fun r => exists s, Items (base r) = Some s) t).
Proof.
  eexists. split; [reflexivity|].
  assert (dropna_Items df = filter (fun r => Items r <> None) df) as Hd.
  { unfold dropna_Items. apply list_filter_iff. intros r.
    rewrite <- not_eq_None_Some. done. }
  split_and!.
  - apply Forall_forall. intros r' Hr'.
    change (map ?f ?l) with (f <$> l) in Hr'.
    apply list_elem_of_fmap in Hr' as (r & -> & Hr).
    apply elem_of_dropna_Items in Hr as [_ [s Hs]].
    rewrite Items_set_Daypart. eauto.
  - by rewrite Hd.
  - intros r Hr Hi. change (map ?f ?l) with (f <$> l).
    apply list_elem_of_fmap_2, elem_of_dropna_Items. split; [done|].
    destruct (Items r); [eauto | done].
  - rewrite length_map, Hd. clear Hd. induction df as [|r df IH]; [done|].
    rewrite !filter_cons. destruct (Items r) as [s|].
    + rewrite decide_True, decide_False by done. simpl. lia.
    + rewrite decide_False, decide_True by (try done; by intros []). simpl. lia.
  - intros Hne. apply derived_table_Return. split; [reflexivity|].
    unfold loaded. intros Hnil. apply Hne.
    by destruct (map set_Daypart (dropna_Items df)).
  - intros Hnil. apply derived_table_Raise. unfold loaded. by rewrite Hnil.
  - intros t [-> _]%derived_table_Return. unfold loaded. split.
    + rewrite map_map. simpl. apply map_id.
    + apply Forall_forall. intros r' Hr'.
      change (map ?f ?l) with (f <$> l) in Hr'.
      apply list_elem_of_fmap in Hr' as (r1 & -> & Hr1).
      apply list_elem_of_fmap in Hr1 as (r & -> & Hr).
      apply elem_of_dropna_Items in Hr as [_ [s Hs]]. simpl. eauto.
Qed.

Lemma load_drops_rows_without_items_witness :
  exists out,
    load_data (Some morning_sales) = Some out
    /\ length out = 7
    /\ derived_table (Some morning_sales) = Return (Some (map add_category out)).
Proof.
  destruct (load_drops_rows_without_items morning_sales)
    as (out & Hout & _ & _ & _ & _ & Htable & _).
  exists out. injection Hout as <-. split_and!; [reflexivity..|].
  apply Htable. discriminate.
Defined.

(** Claim C8. The classifier is defined on every item name and its answer
    is a pair of the fixed taxonomy; a name that no rule matches is
    (Other, other). *)
Theorem classify_total_in_taxonomy (item : cell) :
  (exists p, map_item_category item = p /\ Reference.in_taxonomy p)
  /\ ((forall r, r ∈ Reference.rules ->
         existsb (Reference.matches (normalize item)) (fst r) = false) ->
      map_item_category item = ("Other", "other")).
Proof.
  split.
  - eexists. split; [reflexivity | apply category_of_taxonomy].
  - apply category_of_unmatched.
Qed.

(** Claim C9. Two runs of the page over the same file show the same table
    whatever the caches held before the first; started from caches that
    hold only what the two functions return, and so from empty ones, a run
    shows the table computed from the file alone; and the classifier's
    answer depends on the lower-cased, trimmed item name only. *)
Theorem runs_are_deterministic (file : option (list Row)) :
  (forall c, (run_page file (run_page file c).2).1 = (run_page file c).1)
  /\ (forall c, cache_sound file c ->
        (run_page file c).1 = derived_table file
        /\ cache_sound file (run_page file c).2)
  /\ (run_page file empty_cache).1 = derived_table file
  /\ (forall x y : cell,
        normalize x = normalize y -> map_item_category x = map_item_category y).
Proof.
  split_and!.
  - apply run_page_twice.
  - apply run_page_sound.
  - apply run_page_sound, empty_cache_sound.
  - intros x y H. unfold map_item_category. by rewrite H.
Qed.

(** Claim C10. After loading, a day-part cell is NaN or one of Morning,
    Afternoon, Evening, Night, and a value outside these becomes NaN. In the
    table the page builds, a row that had such a value is present but passes
    the filter of no day part; the ranking of every day part is the ranking
    counted over the other rows alone, and asking for a value that is no
    category gives an empty ranking. *)
Theorem daypart_outside_categories (df : list Row) (d : string) (limit : nat) :
  (forall out, load_data (Some df) = Some out ->
     Forall (fun r => Daypart r = None
                      \/ exists c, c ∈ daypart_order /\ Daypart r = Some c) out)
  /\ (forall r, Daypart_outside r -> Daypart (set_Daypart r) = None)
  /\ (forall t, derived_table (Some df) = Return (Some t) ->
        (forall r, r ∈ df -> is_Some (Items r) -> Daypart_outside r ->
           add_category (set_Daypart r) ∈ t
           /\ add_category (set_Daypart r)
              ∉ filter (fun r' => Daypart (base r') = Some d) t)
        /\ topItemsByDaypart t d limit
           = topItemsByDaypart
               (loaded (filter (fun r => ~ Daypart_outside r) df)) d limit
        /\ (d ∉ daypart_order -> topItemsByDaypart t d limit = [])).
Proof.
  split_and!.
  - intros out [= <-]. apply Forall_forall. intros r' Hr'.
    change (map ?f ?l) with (f <$> l) in Hr'.
    apply list_elem_of_fmap in Hr' as (r & -> & _). simpl.
    destruct (Categorical_cases daypart_order (Daypart r)) as [H|(s & Hs & _ & H)].
    + by left.
    + right. eauto.
  - intros r H. unfold Daypart_outside in H. simpl.
    destruct (Daypart r) as [s|]; [|done]. by apply Categorical_outside.
  - intros t [-> _]%derived_table_Return. split_and!.
    + intros r Hr Hi Hout. split.
      * unfold loaded. change (map ?f ?l) with (f <$> l).
        by apply list_elem_of_fmap_2, list_elem_of_fmap_2, elem_of_dropna_Items.
      * intros [Hd _]%list_elem_of_filter.
        by apply (Daypart_outside_loaded r d Hout).
    + unfold topItemsByDaypart. by rewrite Items_of_daypart_outside.
    + intros Hd. apply topItemsByDaypart_no_match. intros r' Hr' Hd'.
      unfold loaded in Hr'. change (map ?f ?l) with (f <$> l) in Hr'.
      apply list_elem_of_fmap in Hr' as (r1 & -> & Hr1).
      apply list_elem_of_fmap in Hr1 as (r & -> & _).
      simpl in Hd'. apply Categorical_Some in Hd' as [_ ?]. done.
Qed.

Lemma daypart_outside_categories_witness :
  derived_table (Some morning_sales) = Return (Some (loaded morning_sales))
  /\ Daypart_outside (sale 3 "Scone" "Weekday" "Brunch")
  /\ topItemsByDaypart (loaded morning_sales) "Brunch" 5 = [].
Proof.
  split; [reflexivity|]. split.
  { unfold Daypart_outside, daypart_order. simpl. intros Hin.
    repeat (apply elem_of_cons in Hin as [Hin|Hin]; [discriminate|]).
    by apply elem_of_nil in Hin. }
  destruct (daypart_outside_categories morning_sales "Brunch" 5) as (_ & _ & H).
  destruct (H (loaded morning_sales)) as (_ & _ & Hempty); [reflexivity|].
  apply Hempty. unfold daypart_order. intros Hin.
  repeat (apply elem_of_cons in Hin as [Hin|Hin]; [discriminate|]).
  by apply elem_of_nil in Hin.
Defined.

(** * Further properties of the dashboard *)

Section RankingFacts.

Implicit Types (t : list (string * nat)) (l : list string) (x y : string).

Lemma tally_keys l y : y ∈ (tally l).*1 <-> y ∈ l.
Proof.
  unfold tally. rewrite tally_from_keys. simpl. rewrite elem_of_nil. tauto.
Qed.

(** Every value of the column has its entry, with its number of
    occurrences. *)
Lemma tally_complete l y :
  y ∈ l -> (y, length (filter (fun z => z = y) l)) ∈ tally l.
Proof.
  intros Hy. apply tally_keys in Hy.
  apply list_elem_of_fmap in Hy as ([y' n] & -> & Hin).
  pose proof (tally_elem_of _ _ _ Hin) as [_ ->]. done.
Qed.

Lemma tally_length l : length (tally l) = distinct_items l.
Proof.
  unfold distinct_items.
  rewrite <- (length_fmap fst (tally l)).
  rewrite <- (size_list_to_set (C := gset string) ((tally l).*1))
    by apply tally_NoDup.
  f_equal. apply set_eq. intros y.
  by rewrite !elem_of_list_to_set, tally_keys.
Qed.

Lemma bump_sum x t : sum_list (bump x t).*2 = S (sum_list t.*2).
Proof.
  induction t as [|[k n] t IH]; [done|].
  cbn [bump]. destruct (decide (x = k)) as [->|Hne]; [done|].
  rewrite !fmap_cons. cbn [snd sum_list_with id]. rewrite IH. simpl. lia.
Qed.

Lemma tally_from_sum l t :
  sum_list (tally_from t l).*2 = sum_list t.*2 + length l.
Proof.
  revert t. induction l as [|x l IH]; intros t; [simpl; lia|].
  rewrite tally_from_cons, IH, bump_sum. simpl. lia.
Qed.

Lemma tally_sum l : sum_list (tally l).*2 = length l.
Proof. unfold tally. by rewrite tally_from_sum. Qed.

Lemma sort_desc_length t : length (sort_desc t) = length t.
Proof. by rewrite sort_desc_Permutation. Qed.

Lemma sum_list_take_le (ns : list nat) (k : nat) :
  sum_list (take k ns) <= sum_list ns.
Proof.
  rewrite <- (take_drop k ns) at 2. rewrite sum_list_with_app. lia.
Qed.

(** The ranking of a column: what [head(limit)] keeps of [value_counts]. *)
Lemma ranking_length (col : list cell) (limit : nat) :
  length (take limit (value_counts col))
  = limit `min` distinct_items (omap id col).
Proof.
  unfold value_counts. by rewrite length_take, sort_desc_length, tally_length.
Qed.

Lemma ranking_elem_of (col : list cell) (limit : nat) x n :
  (x, n) ∈ take limit (value_counts col) ->
  x ∈ omap id col /\ n = length (filter (fun z => z = x) (omap id col)).
Proof.
  intros Hin. apply tally_elem_of.
  rewrite <- sort_desc_Permutation.
  eapply elem_of_sublist; [exact Hin | apply sublist_take].
Qed.

(** A value the ranking leaves out occurs no more often than any value it
    lists. *)
Lemma ranking_optimal (col : list cell) (limit : nat) x n y :
  (x, n) ∈ take limit (value_counts col) ->
  y ∈ omap id col ->
  y ∉ (take limit (value_counts col)).*1 ->
  length (filter (fun z => z = y) (omap id col)) <= n.
Proof.
  intros Hx Hy Hout. unfold value_counts in *.
  set (s := sort_desc (tally (omap id col))) in *.
  apply tally_complete in Hy. rewrite <- sort_desc_Permutation in Hy.
  fold s in Hy. rewrite <- (take_drop limit s) in Hy.
  apply elem_of_app in Hy as [Hy|Hy].
  - destruct Hout. apply list_elem_of_fmap. by eexists (_, _).
  - pose proof (sort_desc_sorted (tally (omap id col))) as Hs. fold s in Hs.
    rewrite <- (take_drop limit s) in Hs.
    apply (StronglySorted_app_1_elem_of _ _ _ _ _ Hs Hx Hy).
Qed.

Lemma ranking_sum (col : list cell) (limit : nat) :
  sum_list (take limit (value_counts col)).*2 <= length (omap id col)
  /\ (distinct_items (omap id col) <= limit ->
      sum_list (take limit (value_counts col)).*2 = length (omap id col)).
Proof.
  unfold value_counts.
  assert (sum_list (sort_desc (tally (omap id col))).*2 = length (omap id col)) as Hs.
  { rewrite sort_desc_Permutation. apply tally_sum. }
  split.
  - rewrite <- Hs, fmap_take. apply sum_list_take_le.
  - intros Hle. rewrite take_ge; [done|].
    by rewrite sort_desc_length, tally_length.
Qed.

Lemma length_omap_filter {A} (f : A -> cell) (l : list A) :
  length (omap f l) = length (filter (fun a => is_Some (f a)) l).
Proof.
  induction l as [|a l IH]; [done|].
  rewrite filter_cons. cbn [omap list_omap]. destruct (f a) as [y|] eqn:Hy.
  - rewrite decide_True by eauto. simpl. by rewrite IH.
  - rewrite decide_False by (by intros [? ?]). done.
Qed.

Lemma Items_of_category_omap (df : list Derived) (c s : string) :
  omap id (Items_of_category df c s) = omap (Items_in c s) df.
Proof.
  unfold Items_of_category. induction df as [|r df IH]; [done|].
  rewrite filter_cons. cbn [omap list_omap]. unfold Items_in at 1.
  destruct (decide (Category r = c /\ Sub_Category r = s)); [|exact IH].
  rewrite map_cons. cbn [omap list_omap id]. by rewrite IH.
Qed.

Lemma Items_in_Some (c s : string) (r : Derived) (x : string) :
  Items_in c s r = Some x
  <-> (Category r = c /\ Sub_Category r = s) /\ Items (base r) = Some x.
Proof.
  unfold Items_in. destruct (decide _) as [Hd|Hd]; [tauto|].
  split; [done | by intros [? _]].
Qed.

End RankingFacts.

Section LoadedTableFacts.

(** Every row of the loaded table carries the pair the classifier gives
    its item. *)
Lemma loaded_classified (df : list Row) (r : Derived) :
  r ∈ loaded df ->
  (Category r, Sub_Category r) = map_item_category (Items (base r))
  /\ is_Some (Items (base r)).
Proof.
  unfold loaded. change (map ?f ?l) with (f <$> l).
  intros (r1 & -> & Hr1)%list_elem_of_fmap.
  apply list_elem_of_fmap in Hr1 as (r0 & -> & Hr0).
  apply elem_of_dropna_Items in Hr0 as [_ Hs]. split; [|done].
  unfold add_category. simpl. by destruct (map_item_category (Items r0)).
Qed.

Lemma filter_ext_elem {A} (P Q : A -> Prop)
  `{!forall x, Decision (P x), !forall x, Decision (Q x)} (l : list A) :
  (forall x, x ∈ l -> (P x <-> Q x)) -> filter P l = filter Q l.
Proof.
  induction l as [|a l IH]; intros Hext; [done|].
  rewrite !filter_cons.
  assert (filter P l = filter Q l) as ->.
  { apply IH. intros x Hx. by apply Hext, list_elem_of_further. }
  pose proof (Hext a (list_elem_of_here _ _)) as Ha.
  destruct (decide (P a)), (decide (Q a)); tauto.
Qed.

End LoadedTableFacts.

(** X4. An item sold at the day part that the ranking leaves out was sold
    no more often there than any item the ranking lists. *)
Theorem daypart_ranking_keeps_the_most_sold
  (df : list Derived) (d : string) (limit : nat) (x y : string) (n : nat) :
  (x, n) ∈ topItemsByDaypart df d limit ->
  (exists r, r ∈ df /\ Daypart (base r) = Some d /\ Items (base r) = Some y) ->
  y ∉ map fst (topItemsByDaypart df d limit) ->
  length (filter (fun r => Daypart (base r) = Some d /\ Items (base r) = Some y) df)
  <= n.
Proof.
  unfold topItemsByDaypart. intros Hx (r & Hr & Hd & Hy) Hout.
  assert (y ∈ omap id (Items_of_daypart df d)) as Hin.
  { rewrite Items_of_daypart_omap. apply list_elem_of_omap. exists r.
    split; [done|]. by apply Items_at_Some. }
  pose proof (ranking_optimal _ _ _ _ _ Hx Hin Hout) as Hle.
  rewrite Items_of_daypart_omap, length_filter_omap in Hle.
  erewrite list_filter_iff; [exact Hle|].
  intros r'. symmetry. apply Items_at_Some.
Qed.

Lemma daypart_ranking_keeps_the_most_sold_witness :
  length (filter (fun r => Daypart (base r) = Some "Morning"
                           /\ Items (base r) = Some "Tea") (loaded morning_sales))
  <= 2.
Proof.
  apply (daypart_ranking_keeps_the_most_sold
           (loaded morning_sales) "Morning" 2 "Coffee" "Tea" 2).
  - vm_compute. apply list_elem_of_further, list_elem_of_here.
  - exists (add_category (set_Daypart (sale 1 "Tea" "Weekday" "Morning"))).
    split; [|split; reflexivity]. vm_compute. apply list_elem_of_here.
  - vm_compute. intros H.
    repeat (apply elem_of_cons in H as [H|H]; [discriminate|]).
    by apply elem_of_nil in H.
Defined.

(** X5. The ranking has as many entries as the limit allows and the day
    part has distinct items; it is empty exactly when the limit is 0 or no
    row of the day part has an item. *)
Theorem daypart_ranking_length (df : list Derived) (d : string) (limit : nat) :
  length (topItemsByDaypart df d limit)
  = limit `min` distinct_items (omap (Items_at d) df)
  /\ (topItemsByDaypart df d limit = []
      <-> limit = 0
          \/ forall r, r ∈ df -> Daypart (base r) = Some d -> Items (base r) = None).
Proof.
  assert (length (topItemsByDaypart df d limit)
          = limit `min` distinct_items (omap (Items_at d) df)) as Hlen.
  { unfold topItemsByDaypart. by rewrite ranking_length, Items_of_daypart_omap. }
  split; [done|].
  rewrite <- length_zero_iff_nil, Hlen.
  unfold distinct_items. split.
  - intros Hmin. destruct limit as [|k]; [by left|]. right.
    intros r Hr Hd. destruct (Items (base r)) as [x|] eqn:Hx; [|done].
    assert (x ∈ (list_to_set (omap (Items_at d) df) : gset string)) as Hin.
    { apply elem_of_list_to_set, list_elem_of_omap. exists r.
      split; [done|]. by apply Items_at_Some. }
    assert (size (list_to_set (omap (Items_at d) df) : gset string) = 0) as H0 by lia.
    apply size_empty_iff in H0. rewrite H0 in Hin. by apply elem_of_empty in Hin.
  - intros [->|Hno]; [done|].
    assert (omap (Items_at d) df = []) as ->.
    { apply elem_of_nil_inv. intros x (r & Hr & Hx)%list_elem_of_omap.
      apply Items_at_Some in Hx as [Hd Hx]. rewrite (Hno r Hr Hd) in Hx. done. }
    rewrite list_to_set_nil, size_empty. lia.
Qed.

(** X6. The counts of a ranking never add up to more than the rows of
    the day part that have an item, and to exactly that many when the limit
    covers every distinct item. *)
Theorem daypart_ranking_counts_add_up (df : list Derived) (d : string) (limit : nat) :
  let rows := filter (fun r => Daypart (base r) = Some d
                               /\ is_Some (Items (base r))) df in
  sum_list (map snd (topItemsByDaypart df d limit)) <= length rows
  /\ (distinct_items (omap (Items_at d) df) <= limit ->
      sum_list (map snd (topItemsByDaypart df d limit)) = length rows).
Proof.
  intros rows. subst rows. unfold topItemsByDaypart.
  pose proof (ranking_sum (Items_of_daypart df d) limit) as [Hle Heq].
  rewrite Items_of_daypart_omap, length_omap_filter in Hle, Heq.
  assert (filter (fun r => is_Some (Items_at d r)) df
          = filter (fun r => Daypart (base r) = Some d /\ is_Some (Items (base r))) df)
    as Hf.
  { apply list_filter_iff. intros r. unfold is_Some.
    split.
    - intros [x Hx]. apply Items_at_Some in Hx as [? ?]. eauto.
    - intros [Hd [x Hx]]. exists x. by apply Items_at_Some. }
  rewrite Hf in Hle, Heq. done.
Qed.

(** X7. The category ranking has as many entries as the limit and the
    selection allow, in falling order of count, one per item; an entry
    counts the rows of the selection that sell the item, and an item of the
    selection left out was sold no more often than any listed one. *)
Theorem category_ranking (df : list Derived) (c s : string) (limit : nat) :
  let top := topItemsByCategory df c s limit in
  length top = limit `min` distinct_items (omap (Items_in c s) df)
  /\ (forall i j p q, i < j -> top !! i = Some p -> top !! j = Some q ->
        snd q <= snd p)
  /\ NoDup (map fst top)
  /\ (forall x n, (x, n) ∈ top ->
        0 < n
        /\ n = length (filter (fun r => (Category r = c /\ Sub_Category r = s)
                                        /\ Items (base r) = Some x) df))
  /\ (forall x n y, (x, n) ∈ top ->
        (exists r, r ∈ df /\ (Category r = c /\ Sub_Category r = s)
                   /\ Items (base r) = Some y) ->
        y ∉ map fst top ->
        length (filter (fun r => (Category r = c /\ Sub_Category r = s)
                                 /\ Items (base r) = Some y) df) <= n).
Proof.
  intros top. subst top. unfold topItemsByCategory.
  split_and!.
  - by rewrite ranking_length, Items_of_category_omap.
  - intros i j p q Hij Hi Hj. change (desc p q).
    eapply StronglySorted_lookup; [|exact Hij|exact Hi|exact Hj].
    apply StronglySorted_take, sort_desc_sorted.
  - change (map fst ?l) with (l.*1). unfold value_counts.
    eapply sublist_NoDup; [|apply fmap_sublist, sublist_take].
    rewrite sort_desc_Permutation. apply tally_NoDup.
  - intros x n Hin. apply ranking_elem_of in Hin as [Hx ->].
    rewrite Items_of_category_omap in *. rewrite length_filter_omap.
    split.
    + apply list_elem_of_omap in Hx as (r & Hr & Hx).
      apply list_elem_of_split in Hr as (l1 & l2 & ->).
      rewrite filter_app, filter_cons_True, length_app by done. simpl. lia.
    + f_equal. apply list_filter_iff. intros r. apply Items_in_Some.
  - intros x n y Hx (r & Hr & Hcs & Hy) Hout.
    assert (y ∈ omap id (Items_of_category df c s)) as Hin.
    { rewrite Items_of_category_omap. apply list_elem_of_omap. exists r.
      split; [done|]. by apply Items_in_Some. }
    pose proof (ranking_optimal _ _ _ _ _ Hx Hin Hout) as Hle.
    rewrite Items_of_category_omap, length_filter_omap in Hle.
    erewrite list_filter_iff; [exact Hle|].
    intros r'. symmetry. apply Items_in_Some.
Qed.

(** X8. On the loaded table an item listed under a category and
    sub-category is one the classifier puts there, its count is the number
    of all rows of the table that sell it, and it is listed under no other
    selection. *)
Theorem category_ranking_of_loaded_table
  (df : list Row) (c s : string) (limit : nat) (x : string) (n : nat) :
  (x, n) ∈ topItemsByCategory (loaded df) c s limit ->
  map_item_category (Some x) = (c, s)
  /\ n = length (filter (fun r => Items (base r) = Some x) (loaded df))
  /\ (forall c' s' limit' m,
        (x, m) ∈ topItemsByCategory (loaded df) c' s' limit' ->
        c' = c /\ s' = s /\ m = n).
Proof.
  assert (forall c s limit n,
            (x, n) ∈ topItemsByCategory (loaded df) c s limit ->
            map_item_category (Some x) = (c, s)
            /\ n = length (filter (fun r => Items (base r) = Some x) (loaded df)))
    as Hmain.
  { clear. intros c s limit n Hin.
    unfold topItemsByCategory in Hin.
    apply ranking_elem_of in Hin as [Hx ->].
    rewrite Items_of_category_omap in *.
    apply list_elem_of_omap in Hx as (r & Hr & Hx).
    apply Items_in_Some in Hx as [[Hc Hs] Hx].
    apply loaded_classified in Hr as [Hr _].
    rewrite Hx, Hc, Hs in Hr. split; [done|].
    rewrite length_filter_omap. f_equal. apply filter_ext_elem.
    intros r' Hr'. rewrite Items_in_Some. split; [tauto|]. intros Hx'.
    split; [|done].
    apply loaded_classified in Hr' as [Hr' _].
    rewrite Hx', <- Hr in Hr'. by injection Hr'. }
  intros Hin. destruct (Hmain _ _ _ _ Hin) as [Hcs Hn].
  split_and!; [done..|].
  intros c' s' limit' m Hin'. destruct (Hmain _ _ _ _ Hin') as [Hcs' Hm].
  rewrite Hcs in Hcs'. injection Hcs' as -> ->. by rewrite Hn, Hm.
Qed.

Lemma category_ranking_of_loaded_table_witness :
  map_item_category (Some "Coffee") = ("Drink", "coffee").
Proof.
  apply (category_ranking_of_loaded_table morning_sales "Drink" "coffee" 10 "Coffee" 2).
  vm_compute. apply list_elem_of_here.
Defined.

Section SecondTabFacts.

Lemma foldr_max_spec (x : nat) (t : list nat) :
  foldr Nat.max x t ∈ x :: t /\ forall n, n ∈ x :: t -> n <= foldr Nat.max x t.
Proof.
  induction t as [|y t [IHin IHle]]; simpl.
  - split; [apply list_elem_of_here|].
    intros n Hn. apply list_elem_of_singleton in Hn. lia.
  - split.
    + destruct (Nat.max_spec y (foldr Nat.max x t)) as [[_ ->]|[_ ->]].
      * apply elem_of_cons in IHin as [->|?];
          [apply list_elem_of_here | by do 2 apply list_elem_of_further].
      * apply list_elem_of_further, list_elem_of_here.
    + intros n Hn. apply elem_of_cons in Hn as [Hn|Hn].
      * pose proof (IHle n). rewrite elem_of_cons in H. specialize (H (or_introl Hn)). lia.
      * apply elem_of_cons in Hn as [Hn|Hn]; [lia|].
        pose proof (IHle n (list_elem_of_further _ _ _ Hn)). lia.
Qed.

(** The maximum of a series is one of its values and bounds them all. *)
Lemma series_max_Some (ns : list nat) (m : nat) :
  series_max ns = Some m -> m ∈ ns /\ forall n, n ∈ ns -> n <= m.
Proof.
  destruct ns as [|x t]; [done|]. simpl. intros [= <-]. apply foldr_max_spec.
Qed.

Lemma elem_of_sales_by_day (df : list Derived) (k : string) (n : nat) :
  (k, n) ∈ sales_by_day df
  <-> Some k ∈ map (fun r => DayType (base r)) df
      /\ n = nunique (TransactionNo_of df k).
Proof.
  unfold sales_by_day. change (map ?f ?l) with (f <$> l) at 1.
  rewrite list_elem_of_fmap. split.
  - intros (k' & [= -> ->] & Hk). by rewrite <- elem_of_group_keys.
  - intros [Hk ->]. exists k. by rewrite elem_of_group_keys.
Qed.

Lemma nunique_le_length (col : list (option Z)) : nunique col <= length col.
Proof.
  unfold nunique. trans (length (omap id col)).
  - apply submseteq_length, NoDup_submseteq; [apply NoDup_remove_dups|].
    intros x. by rewrite elem_of_remove_dups.
  - induction col as [|[z|] col IH]; [done| |];
      cbn [omap list_omap id length] in *; lia.
Qed.

Lemma nunique_pos (col : list (option Z)) :
  0 < nunique col <-> exists z, Some z ∈ col.
Proof.
  unfold nunique. split.
  - intros Hpos. destruct (remove_dups (omap id col)) as [|z l] eqn:Hl;
      [simpl in Hpos; lia|].
    exists z. assert (z ∈ remove_dups (omap id col)) as Hz.
    { rewrite Hl. apply list_elem_of_here. }
    apply elem_of_remove_dups, list_elem_of_omap in Hz as (o & Ho & Hz).
    simpl in Hz. by subst.
  - intros [z Hz].
    assert (z ∈ remove_dups (omap id col)) as Hin.
    { apply elem_of_remove_dups, list_elem_of_omap. by exists (Some z). }
    destruct (remove_dups (omap id col)); [by apply elem_of_nil in Hin|].
    simpl. lia.
Qed.

Lemma tab2_cases (df : list Derived) :
  (Some "Weekend" ∈ map (fun r => DayType (base r)) df
   /\ Some "Weekday" ∈ map (fun r => DayType (base r)) df
   /\ exists c, tab2 df = Return c)
  \/ ((Some "Weekend" ∉ map (fun r => DayType (base r)) df
       \/ Some "Weekday" ∉ map (fun r => DayType (base r)) df)
      /\ tab2 df = Raise IndexError).
Proof.
  destruct (decide (Some "Weekend" ∈ map (fun r => DayType (base r)) df)) as [Hwe|Hwe];
    [|right; split; [by left | by apply tab2_weekend_missing]].
  destruct (decide (Some "Weekday" ∈ map (fun r => DayType (base r)) df)) as [Hwd|Hwd];
    [|right; split; [by right | by apply tab2_weekday_missing]].
  left. split_and!; [done..|].
  unfold tab2. rewrite !Total_Transactions_of_sales.
  rewrite !decide_True by done. simpl. eauto.
Qed.

(** The colours the second tab computes, read off its definition. *)
Lemma tab2_color_map (df : list Derived) (c : Comparison) :
  tab2 df = Return c ->
  color_map c
  = if decide (Some (weekend_sales c) = series_max (map snd (sales_by_day df)))
    then <["Weekday" := light_pink]> (<["Weekend" := dark_pink]> ∅)
    else <["Weekend" := light_pink]> (<["Weekday" := dark_pink]> ∅).
Proof.
  unfold tab2. rewrite !Total_Transactions_of_sales.
  destruct (decide (Some "Weekend" ∈ _)) as [Hwe|Hwe]; [|done].
  destruct (decide (Some "Weekday" ∈ _)) as [Hwd|Hwd]; [|done].
  simpl. intros [= <-]. simpl. done.
Qed.

End SecondTabFacts.

Section SecondTabColours.

Lemma sales_by_day_keys (df : list Derived) :
  map fst (sales_by_day df) = group_keys (map (fun r => DayType (base r)) df).
Proof.
  unfold sales_by_day. rewrite map_map. simpl. apply map_id.
Qed.

Lemma weekend_in_sales (df : list Derived) (c : Comparison) :
  tab2 df = Return c ->
  ("Weekend", weekend_sales c) ∈ sales_by_day df
  /\ ("Weekday", weekday_sales c) ∈ sales_by_day df.
Proof.
  intros (Hwe & Hwd & -> & -> & _)%tab2_Return.
  split; by apply elem_of_sales_by_day.
Qed.

Lemma weekend_is_max_iff (df : list Derived) (c : Comparison) :
  tab2 df = Return c ->
  Some (weekend_sales c) = series_max (map snd (sales_by_day df))
  <-> forall k n, (k, n) ∈ sales_by_day df -> n <= weekend_sales c.
Proof.
  intros [Hwe _]%weekend_in_sales.
  assert (weekend_sales c ∈ map snd (sales_by_day df)) as Hin.
  { change (map ?f ?l) with (f <$> l). apply list_elem_of_fmap.
    by exists ("Weekend", weekend_sales c). }
  split.
  - intros Hmax k n Hkn. symmetry in Hmax.
    apply series_max_Some in Hmax as [_ Hle]. apply Hle.
    change (map ?f ?l) with (f <$> l). apply list_elem_of_fmap. by exists (k, n).
  - intros Hle. destruct (series_max (map snd (sales_by_day df))) as [m|] eqn:Hm.
    + apply series_max_Some in Hm as [Hm1 Hm2]. f_equal.
      change (map ?f ?l) with (f <$> l) in Hm1.
      apply list_elem_of_fmap in Hm1 as ([k n] & -> & Hkn).
      pose proof (Hle k n Hkn). pose proof (Hm2 _ Hin). simpl in *. lia.
    + destruct (map snd (sales_by_day df)); [by apply elem_of_nil in Hin | done].
Qed.

Lemma weekend_dark_iff (df : list Derived) (c : Comparison) :
  tab2 df = Return c ->
  color_map c !! "Weekend" = Some dark_pink
  <-> forall k n, (k, n) ∈ sales_by_day df -> n <= weekend_sales c.
Proof.
  intros Ht. rewrite <- (weekend_is_max_iff df c Ht).
  rewrite (tab2_color_map df c Ht).
  destruct (decide (Some (weekend_sales c) = _)) as [Hm|Hm].
  - split; [done|]. intros _. done.
  - split; [|done]. intros Hl. exfalso. vm_compute in Hl. discriminate.
Qed.

End SecondTabColours.

(** X1. The comparison raises [IndexError] exactly when the table has no
    Weekend row or no Weekday row, and returns its triple exactly when it
    has both. *)
Theorem comparison_raises_iff_a_kind_is_missing (df : list Derived) :
  let has k := exists r, r ∈ df /\ DayType (base r) = Some k in
  (compareWeekendVsWeekday df = Raise IndexError
   <-> ~ (has "Weekend" /\ has "Weekday"))
  /\ ((exists we wd w, compareWeekendVsWeekday df = Return (we, wd, w))
      <-> has "Weekend" /\ has "Weekday").
Proof.
  intros has. subst has. simpl. rewrite <- !DayType_present.
  unfold compareWeekendVsWeekday.
  destruct (tab2_cases df) as [(Hwe & Hwd & c & ->)|[Hno ->]]; simpl.
  - split; split; try done; [tauto | eauto].
  - split; split; try done; [tauto | by intros (? & ? & ? & ?) | tauto].
Qed.

(** X2. When the second tab returns, the colour map has the two keys
    Weekend and Weekday, one dark and one light; Weekend is the dark one
    exactly when no day type has more transactions than Weekend, so a third
    day type with more makes Weekday the dark one. *)
Theorem bar_colours (df : list Derived) (c : Comparison) :
  tab2 df = Return c ->
  dom (color_map c) = ({["Weekend"; "Weekday"]} : gset string)
  /\ ((color_map c !! "Weekend" = Some dark_pink
       /\ color_map c !! "Weekday" = Some light_pink)
      \/ (color_map c !! "Weekend" = Some light_pink
          /\ color_map c !! "Weekday" = Some dark_pink))
  /\ (color_map c !! "Weekend" = Some dark_pink
      <-> forall k n, (k, n) ∈ sales_by_day df -> n <= weekend_sales c)
  /\ (forall k n, (k, n) ∈ sales_by_day df -> weekend_sales c < n ->
        color_map c !! "Weekday" = Some dark_pink).
Proof.
  intros Ht. pose proof (weekend_dark_iff df c Ht) as Hiff.
  pose proof (tab2_color_map df c Ht) as Hc.
  assert ((color_map c !! "Weekend" = Some dark_pink
           /\ color_map c !! "Weekday" = Some light_pink)
          \/ (color_map c !! "Weekend" = Some light_pink
              /\ color_map c !! "Weekday" = Some dark_pink)) as Hcases.
  { rewrite Hc. destruct (decide _); [left | right]; split; reflexivity. }
  split_and!; [| done | done |].
  - rewrite Hc. destruct (decide _);
      rewrite !dom_insert_L, dom_empty_L; set_solver.
  - intros k n Hkn Hlt. destruct Hcases as [[Hd _]|[_ Hd]]; [|done].
    pose proof (proj1 Hiff Hd k n Hkn). lia.
Qed.

Lemma bar_colours_witness :
  exists c, tab2 (loaded holiday_sales) = Return c
            /\ color_map c !! "Weekday" = Some dark_pink.
Proof.
  destruct (tab2 (loaded holiday_sales)) as [c|e] eqn:E;
    [|vm_compute in E; discriminate].
  exists c. split; [reflexivity|].
  destruct (bar_colours (loaded holiday_sales) c E) as (_ & _ & _ & H).
  apply (H "Holiday" 3).
  - vm_compute. apply list_elem_of_here.
  - apply tab2_Return in E as (_ & _ & -> & _). vm_compute. lia.
Defined.

(** X3. On a table whose day types are Weekend and Weekday only, Weekend
    is dark exactly when it has at least as many transactions as Weekday,
    while the message names Weekend only when it has strictly more: on a
    tie the chart marks Weekend and the message names Weekday. *)
Theorem colour_and_message_on_two_kinds (df : list Derived) (c : Comparison) :
  tab2 df = Return c ->
  (forall r, r ∈ df ->
     DayType (base r) = None \/ DayType (base r) = Some "Weekend"
     \/ DayType (base r) = Some "Weekday") ->
  (color_map c !! "Weekend" = Some dark_pink
   <-> weekday_sales c <= weekend_sales c)
  /\ (winner c = Weekend <-> weekday_sales c < weekend_sales c)
  /\ (weekend_sales c = weekday_sales c ->
      color_map c !! "Weekend" = Some dark_pink /\ winner c = Weekday).
Proof.
  intros Ht Hkinds.
  assert (color_map c !! "Weekend" = Some dark_pink
          <-> weekday_sales c <= weekend_sales c) as Hcol.
  { rewrite (weekend_dark_iff df c Ht).
    destruct (weekend_in_sales df c Ht) as [Hwe Hwd]. split.
    - intros Hle. by apply (Hle "Weekday").
    - intros Hle k n Hkn.
      apply elem_of_sales_by_day in Hkn as [Hk Hn].
      apply DayType_present in Hk as (r & Hr & Hk).
      apply elem_of_sales_by_day in Hwe as [_ Hwe].
      apply elem_of_sales_by_day in Hwd as [_ Hwd].
      destruct (Hkinds r Hr) as [H|[H|H]]; rewrite H in Hk;
        [done | injection Hk as <- | injection Hk as <-]; lia. }
  assert (winner c = Weekend <-> weekday_sales c < weekend_sales c) as Hwin.
  { apply tab2_Return in Ht as (_ & _ & _ & _ & ->). apply winner_of_Weekend. }
  split_and!; [done..|].
  intros Heq. split.
  - apply Hcol. lia.
  - destruct (winner c); [|done]. assert (weekday_sales c < weekend_sales c) by tauto.
    lia.
Qed.

Lemma colour_and_message_on_two_kinds_witness :
  exists c, tab2 (loaded tie_sales) = Return c
            /\ color_map c !! "Weekend" = Some dark_pink /\ winner c = Weekday.
Proof.
  destruct (tab2 (loaded tie_sales)) as [c|e] eqn:E;
    [|vm_compute in E; discriminate].
  exists c. split; [reflexivity|].
  destruct (colour_and_message_on_two_kinds (loaded tie_sales) c E) as (_ & _ & H).
  - intros r Hr. vm_compute in Hr.
    repeat (apply elem_of_cons in Hr as [->|Hr]; [simpl; tauto|]).
    by apply elem_of_nil in Hr.
  - apply H. apply tab2_Return in E as (_ & _ & -> & -> & _). reflexivity.
Defined.

(** X12. The chart has one bar per day type present in the table, in
    ascending order of the name; a bar's count is at most the number of
    rows of that day type, and positive exactly when one of them has a
    transaction number. *)
Theorem one_bar_per_day_type (df : list Derived) :
  StronglySorted str_lt (map fst (sales_by_day df))
  /\ NoDup (map fst (sales_by_day df))
  /\ (forall k, k ∈ map fst (sales_by_day df)
                <-> exists r, r ∈ df /\ DayType (base r) = Some k)
  /\ (forall k n, (k, n) ∈ sales_by_day df ->
        n <= length (filter (fun r => DayType (base r) = Some k) df)
        /\ (0 < n <-> exists r, r ∈ df /\ DayType (base r) = Some k
                                /\ is_Some (TransactionNo (base r)))).
Proof.
  rewrite sales_by_day_keys. split_and!.
  - apply group_keys_sorted.
  - apply group_keys_NoDup.
  - intros k. by rewrite elem_of_group_keys, DayType_present.
  - intros k n [_ ->]%elem_of_sales_by_day. split.
    + etrans; [apply nunique_le_length|].
      unfold TransactionNo_of. by rewrite length_map.
    + rewrite nunique_pos. unfold TransactionNo_of.
      change (map ?f ?l) with (f <$> l). split.
      * intros (z & (r & Hz & Hr)%list_elem_of_fmap).
        apply list_elem_of_filter in Hr as [Hk Hr].
        exists r. split_and!; [done..|]. rewrite <- Hz. eauto.
      * intros (r & Hr & Hk & [z Hz]). exists z.
        apply list_elem_of_fmap. exists r. split; [done|].
        by apply list_elem_of_filter.
Qed.

Section StripFacts.

Lemma is_space_lower_char (c : ascii) :
  PyStr.is_space (PyStr.lower_char c) = PyStr.is_space c.
Proof. destruct c as [[] [] [] [] [] [] [] []]; reflexivity. Qed.

Lemma lower_append (a b : string) :
  PyStr.lower (String.append a b) = String.append (PyStr.lower a) (PyStr.lower b).
Proof.
  induction a as [|c a IH]; [done|].
  rewrite append_cons. simpl. rewrite IH. by rewrite append_cons.
Qed.

Lemma all_space_lower (w : string) : all_space (PyStr.lower w) = all_space w.
Proof.
  induction w as [|c w IH]; [done|]. simpl. by rewrite is_space_lower_char, IH.
Qed.

Lemma lstrip_all_space (w s : string) :
  all_space w = true -> PyStr.lstrip (String.append w s) = PyStr.lstrip s.
Proof.
  induction w as [|c w IH]; [done|]. cbn [all_space].
  intros [Hc Hw]%andb_true_iff. rewrite append_cons. cbn [PyStr.lstrip].
  rewrite Hc. by apply IH.
Qed.

Lemma rstrip_all_space (w : string) : all_space w = true -> PyStr.rstrip w = EmptyString.
Proof.
  induction w as [|c w IH]; [done|]. cbn [all_space PyStr.rstrip].
  intros [Hc Hw]%andb_true_iff. by rewrite IH, Hc.
Qed.

Lemma rstrip_append (u w : string) :
  all_space w = true -> PyStr.rstrip (String.append u w) = PyStr.rstrip u.
Proof.
  intros Hw. induction u as [|c u IH].
  - by apply rstrip_all_space.
  - rewrite append_cons. cbn [PyStr.rstrip]. by rewrite IH.
Qed.

Lemma strip_append_r (u w : string) :
  all_space w = true -> PyStr.strip (String.append u w) = PyStr.strip u.
Proof.
  intros Hw. unfold PyStr.strip. induction u as [|c u IH].
  - rewrite append_nil. cbn [PyStr.lstrip PyStr.rstrip].
    apply rstrip_all_space. clear -Hw.
    induction w as [|c w IH]; [done|]. cbn [all_space PyStr.lstrip] in *.
    apply andb_true_iff in Hw as [Hc Hw]. rewrite Hc. by apply IH.
  - rewrite append_cons. cbn [PyStr.lstrip]. destruct (PyStr.is_space c); [exact IH|].
    rewrite <- append_cons. by apply rstrip_append.
Qed.

Lemma strip_padded (w1 w2 s : string) :
  all_space w1 = true -> all_space w2 = true ->
  PyStr.strip (String.append w1 (String.append s w2)) = PyStr.strip s.
Proof.
  intros H1 H2. unfold PyStr.strip at 1. rewrite lstrip_all_space by done.
  by apply strip_append_r.
Qed.

End StripFacts.

(** X10. Two names that differ only in letter case and in white space
    around them are classified alike. *)
Theorem classification_ignores_case_and_padding (s t w1 w2 : string) :
  all_space w1 = true -> all_space w2 = true ->
  PyStr.lower s = PyStr.lower t ->
  map_item_category (Some (String.append w1 (String.append s w2)))
  = map_item_category (Some t).
Proof.
  intros H1 H2 Hst. unfold map_item_category, normalize. simpl. f_equal.
  rewrite !lower_append, Hst.
  apply strip_padded; by rewrite all_space_lower.
Qed.

Lemma classification_ignores_case_and_padding_witness :
  map_item_category (Some "  ESPRESSO  ") = map_item_category (Some "Espresso").
Proof.
  apply (classification_ignores_case_and_padding "ESPRESSO" "Espresso" "  " "  ");
    reflexivity.
Defined.

(** X9. Every option of the category radio has a non-empty list of
    sub-categories (the dictionary lookup cannot fail); every pair the
    classifier returns is (Other, other) or a pair the two widgets can
    select; every selectable pair is the class of some item name; and Other
    is no key of the dictionary. *)
Theorem category_widgets_match_the_classifier :
  (forall c, c ∈ item_category_options ->
     exists subs, sub_category_options c = Some subs /\ subs <> [])
  /\ (forall item c s, map_item_category item = (c, s) ->
        (c = "Other" /\ s = "other")
        \/ (c ∈ item_category_options
            /\ exists subs, sub_category_options c = Some subs /\ s ∈ subs))
  /\ (forall c subs s, c ∈ item_category_options ->
        sub_category_options c = Some subs -> s ∈ subs ->
        exists name, map_item_category (Some name) = (c, s))
  /\ sub_category_options "Other" = None.
Proof.
  split_and!.
  - intros c Hc. unfold item_category_options in Hc.
    repeat (apply elem_of_cons in Hc as [->|Hc]; [eexists; split; [reflexivity|done]|]).
    by apply elem_of_nil in Hc.
  - intros item c s Hcs. pose proof (category_of_taxonomy (normalize item)) as Ht.
    fold (map_item_category item) in Ht. rewrite Hcs in Ht.
    destruct Ht as (subs & Hin & Hs). simpl in *. unfold Reference.taxonomy in Hin.
    repeat (apply elem_of_cons in Hin as [[= -> ->]|Hin];
            [ first [ left; apply list_elem_of_singleton in Hs; by subst
                    | right; split;
                      [ unfold item_category_options;
                        repeat first [apply list_elem_of_here | apply list_elem_of_further]
                      | eexists; split; [reflexivity|];
                        repeat (apply elem_of_cons in Hs as [->|Hs];
                                [repeat first [apply list_elem_of_here
                                              | apply list_elem_of_further]|]);
                        by apply elem_of_nil in Hs ] ] |]).
    by apply elem_of_nil in Hin.
  - intros c subs s Hc Hsubs Hs. unfold item_category_options in Hc.
    repeat (apply elem_of_cons in Hc as [->|Hc];
            [ vm_compute in Hsubs; injection Hsubs as <-;
              repeat (apply elem_of_cons in Hs as [->|Hs];
                      [ first [ by exists "cake" | by exists "cookies"
                              | by exists "muffin" | by exists "bread"
                              | by exists "juice" | by exists "coffee"
                              | by exists "tea" | by exists "sandwich" ] |]);
              by apply elem_of_nil in Hs |]).
    by apply elem_of_nil in Hc.
  - reflexivity.
Qed.

(** X11. After a run the cache of [load_data] holds the frame that run
    used, and every later run shows the table of that run, whatever the
    file has become. *)
Theorem cached_table_outlives_the_file (file file' : option (list Row)) (c : Cache) :
  (run_page file' (run_page file c).2).1 = (run_page file c).1
  /\ load_data_cache (run_page file c).2
     = Some (match load_data_cache c with
             | Some v => v
             | None => load_data file
             end).
Proof.
  unfold run_page, cached_load_data.
  destruct (load_data_cache c) as [o|] eqn:Hl.
  - destruct o as [df|]; simpl.
    + pose proof (cached_apply_grows df c) as H.
      destruct (cached_apply df c) as [ds c2]. simpl.
      destruct H as (Hl2 & _ & -> & Hall).
      rewrite Hl2, Hl. by rewrite cached_apply_hit.
    + by rewrite Hl.
  - destruct (load_data file) as [df|]; simpl; [|done].
    match goal with |- context [cached_apply df ?c1] =>
      pose proof (cached_apply_grows df c1) as H;
      destruct (cached_apply df c1) as [ds c2] end.
    simpl in *. destruct H as (Hl2 & _ & -> & Hall).
    rewrite Hl2. by rewrite cached_apply_hit.
Qed.

Section LoadedQueries.

Lemma TransactionNo_of_loaded (df : list Row) (k : string) :
  TransactionNo_of (loaded df) k
  = map TransactionNo (filter (fun r => is_Some (Items r) /\ DayType r = Some k) df).
Proof.
  unfold TransactionNo_of. induction df as [|r df IH]; [done|].
  rewrite loaded_cons, (filter_cons _ r df).
  destruct (decide (is_Some (Items r))) as [Hi|Hi].
  - rewrite filter_cons. simpl.
    destruct (decide (DayType r = Some k)) as [Hk|Hk].
    + rewrite decide_True by done. simpl. by rewrite IH.
    + rewrite decide_False by tauto. exact IH.
  - rewrite decide_False by tauto. exact IH.
Qed.

Lemma DayType_of_loaded (df : list Row) (k : string) :
  Some k ∈ map (fun r => DayType (base r)) (loaded df)
  <-> filter (fun r => is_Some (Items r) /\ DayType r = Some k) df <> [].
Proof.
  rewrite DayType_present. split.
  - intros (r' & Hr' & Hk). unfold loaded in Hr'.
    change (map ?f ?l) with (f <$> l) in Hr'.
    apply list_elem_of_fmap in Hr' as (r1 & -> & Hr1).
    apply list_elem_of_fmap in Hr1 as (r & -> & Hr).
    apply elem_of_dropna_Items in Hr as [Hr Hi]. simpl in Hk.
    intros Hnil. apply (filter_nil_not_elem_of _ _ r Hnil); done.
  - intros Hne.
    destruct (filter (fun r => is_Some (Items r) /\ DayType r = Some k) df)
      as [|r l] eqn:Hf; [done|].
    assert (r ∈ filter (fun r => is_Some (Items r) /\ DayType r = Some k) df) as Hr.
    { rewrite Hf. apply list_elem_of_here. }
    apply list_elem_of_filter in Hr as [[Hi Hk] Hr].
    exists (add_category (set_Daypart r)). split; [|done].
    unfold loaded. change (map ?f ?l) with (f <$> l).
    apply list_elem_of_fmap_2, list_elem_of_fmap_2, elem_of_dropna_Items. done.
Qed.

Lemma length_filter_loaded (df : list Row) (d x : string) :
  d ∈ daypart_order ->
  length (filter (fun r => Daypart (base r) = Some d /\ Items (base r) = Some x)
                 (loaded df))
  = length (filter (fun r => Daypart r = Some d /\ Items r = Some x) df).
Proof.
  intros Hd. induction df as [|r df IH]; [done|].
  rewrite loaded_cons, (filter_cons _ r df).
  destruct (decide (is_Some (Items r))) as [Hi|Hi].
  - rewrite filter_cons. simpl.
    destruct (decide (Daypart r = Some d /\ Items r = Some x)) as [[H1 H2]|Hno].
    + rewrite decide_True; [simpl; by rewrite IH|].
      split; [|done]. apply Categorical_Some. done.
    + rewrite decide_False; [exact IH|].
      intros [H1 H2]. apply Categorical_Some in H1 as [H1 _]. tauto.
  - rewrite decide_False; [exact IH|].
    intros [_ H2]. rewrite H2 in Hi. apply Hi. eauto.
Qed.

End LoadedQueries.

(** X13. The transaction count of a day type on the loaded table is the
    number of distinct transaction numbers among the rows of the file that
    have an item and that day type; the day part of a row plays no role. *)
Theorem day_counts_read_rows_with_items (df : list Row) (k : string) :
  let rows := filter (fun r => is_Some (Items r) /\ DayType r = Some k) df in
  Total_Transactions_of (sales_by_day (loaded df)) k
  = if decide (rows = [])
    then []
    else [Reference.distinct_count (map TransactionNo rows)].
Proof.
  intros rows. subst rows.
  rewrite Total_Transactions_of_sales, nunique_distinct_count, TransactionNo_of_loaded.
  destruct (decide (Some k ∈ _)) as [Hin|Hin]; rewrite DayType_of_loaded in Hin.
  - by rewrite decide_False.
  - rewrite decide_True; [done|].
    by destruct (decide (filter (fun r => is_Some (Items r) /\ DayType r = Some k) df = [])).
Qed.

(** X14. On the loaded table the ranking of a day part that is not one
    of the four categories is empty, and an entry of a ranking counts the
    rows of the file with that day part and that item. *)
Theorem daypart_ranking_of_loaded_table (df : list Row) (d : string) (limit : nat) :
  (d ∉ daypart_order -> topItemsByDaypart (loaded df) d limit = [])
  /\ (forall x n, (x, n) ∈ topItemsByDaypart (loaded df) d limit ->
        d ∈ daypart_order
        /\ n = length (filter (fun r => Daypart r = Some d /\ Items r = Some x) df)).
Proof.
  assert (d ∉ daypart_order -> topItemsByDaypart (loaded df) d limit = []) as Hout.
  { intros Hd. apply topItemsByDaypart_no_match. intros r' Hr' Hd'.
    unfold loaded in Hr'. change (map ?f ?l) with (f <$> l) in Hr'.
    apply list_elem_of_fmap in Hr' as (r1 & -> & Hr1).
    apply list_elem_of_fmap in Hr1 as (r & -> & _).
    simpl in Hd'. apply Categorical_Some in Hd' as [_ ?]. done. }
  split; [done|].
  intros x n Hin.
  assert (d ∈ daypart_order) as Hd.
  { destruct (decide (d ∈ daypart_order)) as [?|Hno]; [done|].
    rewrite (Hout Hno) in Hin. by apply elem_of_nil in Hin. }
  split; [done|].
  unfold topItemsByDaypart in Hin. apply ranking_elem_of in Hin as [_ ->].
  rewrite Items_of_daypart_omap, length_filter_omap.
  rewrite <- (length_filter_loaded df d x Hd). f_equal.
  apply list_filter_iff. intros r. apply Items_at_Some.
Qed.
